(** * DMOD: message protocol, service core and partitioning loop

    A shallow embedding of the parts of the DMOD Python sources that the
    specification speaks about:

    - [dmod/communication/dataset_management_message.py]
    - [dmod/communication/scheduler_request.py]
    - [dmod/communication/websocket_interface.py]
    - [dmod/partitionerservice/service.py]

    Python objects are records, enumerations are inductive types, a [dict]
    with string keys is a [gmap string _], and a call that may raise returns
    a [result].  Code that talks to the outside world (data service, Docker,
    job store, uuid generator) threads an explicit [World]. *)

From stdpp Require Import gmap strings list fin_maps pretty.
From Stdlib Require Import ZArith Lia Ascii.

Local Set Warnings "-register-all".
Local Open Scope string_scope.
Local Open Scope list_scope.
Local Open Scope Z_scope.

(* ================================================================== *)
(** * Python runtime: exceptions, results, dynamic values              *)
(* ================================================================== *)

(** The exceptions the modelled code raises or lets through.  Every one of
    them derives from Python's [Exception], so a handler [except Exception]
    (and a bare [except:]) catches each of them.  [RuntimeError] keeps the
    exception it was raised [from]; the text that [str(e)] would splice
    into its message is the runtime's rendering of that cause and is not
    duplicated in [msg]. *)
Inductive exn : Type :=
  | KeyError (key : string)
  | IndexError
  | AttributeError (attr : string)
  | TypeError
  | RuntimeError (msg : string) (cause : option exn)
  | DmodRuntimeError (msg : string)
  | ContainerError
  | OtherException (cls : string).

Inductive result (A : Type) : Type :=
  | Ok (a : A)
  | Raise (e : exn).
Arguments Ok {A} a.
Arguments Raise {A} e.

Definition rbind {A B} (r : result A) (k : A -> result B) : result B :=
  match r with
  | Ok a => k a
  | Raise e => Raise e
  end.

(** [try: body  except Exception: handler]. *)
Definition try_except {A} (body : result A) (handler : exn -> result A) : result A :=
  match body with
  | Ok a => Ok a
  | Raise e => handler e
  end.

(* ================================================================== *)
(** * Python [str] methods used by the sources                          *)
(* ================================================================== *)

(** Strings are sequences of 8-bit characters and stand for ASCII text:
    [upper] maps [a]..[z] to [A]..[Z] and leaves every other character as
    it is, and the whitespace that [strip] removes is the ASCII whitespace
    of [str.isspace]: codes 9 to 13, 28 to 31, and 32. *)
Module PyString.

Definition isspace (c : ascii) : bool :=
  let n := nat_of_ascii c in
  ((9 <=? n)%nat && (n <=? 13)%nat) || ((28 <=? n)%nat && (n <=? 32)%nat).

Definition upper_char (c : ascii) : ascii :=
  let n := nat_of_ascii c in
  if ((97 <=? n)%nat && (n <=? 122)%nat) then ascii_of_nat (n - 32) else c.

Fixpoint upper (s : string) : string :=
  match s with
  | EmptyString => EmptyString
  | String c s' => String (upper_char c) (upper s')
  end.

Fixpoint lstrip (s : string) : string :=
  match s with
  | EmptyString => EmptyString
  | String c s' => if isspace c then lstrip s' else s
  end.

Fixpoint rstrip (s : string) : string :=
  match s with
  | EmptyString => EmptyString
  | String c s' =>
      match rstrip s' with
      | EmptyString => if isspace c then EmptyString else String c EmptyString
      | r => String c r
      end
  end.

Definition strip (s : string) : string := rstrip (lstrip s).

(** A string is blank when it is empty or holds whitespace only. *)
Fixpoint blank (s : string) : bool :=
  match s with
  | EmptyString => true
  | String c s' => isspace c && blank s'
  end.

(** Truth value of a string: [bool(s)]. *)
Definition truthy (s : string) : bool :=
  match s with
  | EmptyString => false
  | String _ _ => true
  end.

End PyString.

(* ================================================================== *)
(** * dataset_management_message.py: the actions                       *)
(* ================================================================== *)

Module ManagementAction.
(** [class ManagementAction(Enum)], members in declaration order. *)
Inductive t : Type :=
  | UNKNOWN | CREATE | ADD_DATA | REMOVE_DATA | DELETE | SEARCH | QUERY
  | CLOSE_AWAITING.

(** The members in iteration order ([for value in cls]). *)
Definition members : list t :=
  [UNKNOWN; CREATE; ADD_DATA; REMOVE_DATA; DELETE; SEARCH; QUERY; CLOSE_AWAITING].

Definition name (a : t) : string :=
  match a with
  | UNKNOWN => "UNKNOWN"
  | CREATE => "CREATE"
  | ADD_DATA => "ADD_DATA"
  | REMOVE_DATA => "REMOVE_DATA"
  | DELETE => "DELETE"
  | SEARCH => "SEARCH"
  | QUERY => "QUERY"
  | CLOSE_AWAITING => "CLOSE_AWAITING"
  end.

(** The tuple each member is declared with: [(uid, requires_name,
    requires_category)]. *)
Definition value (a : t) : Z * bool * bool :=
  match a with
  | UNKNOWN => (-1, false, false)
  | CREATE => (1, true, true)
  | ADD_DATA => (2, true, false)
  | REMOVE_DATA => (3, true, false)
  | DELETE => (4, true, false)
  | SEARCH => (5, false, true)
  | QUERY => (6, true, false)
  | CLOSE_AWAITING => (7, false, false)
  end.

Definition requires_dataset_name (a : t) : bool := snd (fst (value a)).
Definition requires_data_category (a : t) : bool := snd (value a).

(** [get_for_name]: the first member, in iteration order, whose upper-cased
    name equals the stripped, upper-cased argument; [UNKNOWN] when the
    loop finds none. *)
Fixpoint get_for_name_loop (cleaned_up_str : string) (values : list t) : t :=
  match values with
  | [] => UNKNOWN
  | value :: rest =>
      if String.eqb (PyString.upper (name value)) cleaned_up_str
      then value
      else get_for_name_loop cleaned_up_str rest
  end.

Definition get_for_name (name_str : string) : t :=
  let cleaned_up_str := PyString.upper (PyString.strip name_str) in
  get_for_name_loop cleaned_up_str members.

End ManagementAction.

(* ================================================================== *)
(** * dmod.core.meta_data: categories, formats, domains                 *)
(* ================================================================== *)

(** Modelled from the spec: the enumeration [DataCategory] of
    [dmod.core.meta_data], whose declaration is not among the sources.  The
    sources name the members [CONFIG] and [HYDROFABRIC]; every other member
    is an [OTHER_CATEGORY]. *)
Inductive DataCategory : Type :=
  | CONFIG
  | HYDROFABRIC
  | OTHER_CATEGORY (label : string).

(** Modelled from the spec: the enumeration [DataFormat] of
    [dmod.core.meta_data]; the sources name two members. *)
Inductive DataFormat : Type :=
  | NGEN_GEOJSON_HYDROFABRIC
  | NGEN_PARTITION_CONFIG
  | OTHER_FORMAT (label : string).

(** A dynamically typed Python value, as far as the modelled code can tell
    values apart: [None], booleans, integers, strings, lists, string-keyed
    dicts, and members of the two enumerations that travel inside
    messages. *)
Inductive pyvalue : Type :=
  | PyNone
  | PyBool (b : bool)
  | PyInt (z : Z)
  | PyStr (s : string)
  | PyList (l : list pyvalue)
  | PyDict (d : gmap string pyvalue)
  | PyAction (a : ManagementAction.t)
  | PyCategory (c : DataCategory).

(** [x is None] *)
Definition is_None (v : pyvalue) : bool :=
  match v with
  | PyNone => true
  | _ => false
  end.

(** [d[key] if key in d else None] on a dict. *)
Definition get_or_None (d : gmap string pyvalue) (key : string) : pyvalue :=
  match d !! key with
  | Some v => v
  | None => PyNone
  end.

(** [d[key]] on a dict. *)
Definition getitem (d : gmap string pyvalue) (key : string) : result pyvalue :=
  match d !! key with
  | Some v => Ok v
  | None => Raise (KeyError key)
  end.

(** Modelled from the spec: the class [DiscreteRestriction] of
    [dmod.core.meta_data], whose declaration is not among the sources: a
    constraint binding a named variable to a finite collection of allowed
    values.  The sources read [values] as a list ([len], [values[0]]). *)
Record DiscreteRestriction : Type := mkDiscreteRestriction {
  variable : string;
  values : list pyvalue
}.

(** Modelled from the spec: the class [DataDomain] of
    [dmod.core.meta_data], whose declaration is not among the sources: a
    data format and the discrete restrictions, keyed by variable name.  The
    dict is kept as the list of its items in insertion order, the order in
    which [.items()] yields them. *)
Record DataDomain : Type := mkDataDomain {
  data_format : DataFormat;
  discrete_restrictions : list (string * DiscreteRestriction)
}.

(** [d[key] = v] on a dict kept as its items in insertion order. *)
Fixpoint dict_set {V} (d : list (string * V)) (key : string) (v : V) : list (string * V) :=
  match d with
  | [] => [(key, v)]
  | (k, x) :: rest =>
      if String.eqb k key then (k, v) :: rest else (k, x) :: dict_set rest key v
  end.

(** Modelled from the spec: the constructor of [DataDomain], called as
    [DataDomain(data_format=..., discrete_restrictions=[...])]: the given
    restrictions, keyed by their variable. *)
Definition DataDomain_init (fmt : DataFormat) (restrictions : list DiscreteRestriction) : DataDomain :=
  {| data_format := fmt;
     discrete_restrictions :=
       fold_left (fun d r => dict_set d (variable r) r) restrictions [] |}.

(** Modelled from the spec: the class [DataRequirement] of
    [dmod.core.meta_data], whose declaration is not among the sources: a
    job's need for a dataset of a category, matching a domain, that a named
    dataset may fulfil. *)
Record DataRequirement : Type := mkDataRequirement {
  domain : DataDomain;
  is_input : bool;
  category : DataCategory;
  fulfilled_by : pyvalue
}.

(* ================================================================== *)
(** * dataset_management_message.py: messages and responses           *)
(* ================================================================== *)

Module DatasetManagementMessage.

(** The attributes [__init__] sets.  The constructor checks none of the
    argument types, so each attribute holds whatever value it was given. *)
Record t : Type := mk {
  management_action : pyvalue;
  dataset_name : pyvalue;
  is_read_only_dataset : pyvalue;
  data_category : pyvalue;
  data_domain : option DataDomain;
  data : pyvalue;
  data_location : pyvalue;
  is_pending_data : pyvalue
}.

(** [action.requires_dataset_name]: a property of [ManagementAction]
    members; any other object has no such attribute. *)
Definition getattr_requires_dataset_name (action : pyvalue) : result bool :=
  match action with
  | PyAction a => Ok (ManagementAction.requires_dataset_name a)
  | _ => Raise (AttributeError "requires_dataset_name")
  end.

Definition getattr_requires_data_category (action : pyvalue) : result bool :=
  match action with
  | PyAction a => Ok (ManagementAction.requires_data_category a)
  | _ => Raise (AttributeError "requires_data_category")
  end.

(** [err_msg_template.format(self.__class__.__name__, action, what)] *)
Definition err_msg (action : pyvalue) (what : string) : string :=
  "Cannot create DatasetManagementMessage for action "
  +:+ match action with
      | PyAction a => "ManagementAction." +:+ ManagementAction.name a
      | _ => ""
      end
  +:+ " without " +:+ what.

(** [x is None and action.attr]: the attribute is read only when [x] is
    [None]. *)
Definition None_and (x : pyvalue) (attr : result bool) : result bool :=
  if is_None x then attr else Ok false.

Definition init (action dataset_name is_read_only_dataset category data
                 data_location is_pending_data : pyvalue) : result t :=
  rbind (None_and dataset_name (getattr_requires_dataset_name action)) (fun no_name =>
  if no_name then Raise (RuntimeError (err_msg action "a dataset name") None) else
  rbind (None_and category (getattr_requires_data_category action)) (fun no_category =>
  if no_category then Raise (RuntimeError (err_msg action "a data category") None) else
  Ok {| management_action := action;
        dataset_name := dataset_name;
        is_read_only_dataset := is_read_only_dataset;
        data_category := category;
        data_domain := None;
        data := data;
        data_location := data_location;
        is_pending_data := is_pending_data |})).

(** The [data_domain] setter. *)
Definition set_data_domain (self : t) (domain : option DataDomain) : t :=
  {| management_action := management_action self;
     dataset_name := dataset_name self;
     is_read_only_dataset := is_read_only_dataset self;
     data_category := data_category self;
     data_domain := domain;
     data := data self;
     data_location := data_location self;
     is_pending_data := is_pending_data self |}.

Section Factory.
(** [DataDomain.factory_init_from_deserialized_json], which lives in
    [dmod.core]: it may return a domain, return [None], or raise. *)
Variable DataDomain_factory_init_from_deserialized_json :
  pyvalue -> result (option DataDomain).

(** The body of the [try] block: [Ok obj] is [return obj]. *)
Definition factory_try_body (json_obj : gmap string pyvalue)
    (dataset_name category raw_data data_loc : pyvalue) : result t :=
  rbind (getitem json_obj "action") (fun action =>
  rbind (getitem json_obj "read_only") (fun read_only =>
  rbind (getitem json_obj "pending_data") (fun pending_data =>
  rbind (init action dataset_name read_only category raw_data data_loc pending_data)
    (fun obj =>
  match json_obj !! "data_domain" with
  | Some raw_domain =>
      rbind (DataDomain_factory_init_from_deserialized_json raw_domain) (fun dom =>
      Ok (set_data_domain obj dom))
  | None => Ok obj
  end)))).

(** [Ok (Some obj)] is a returned instance, [Ok None] is a returned
    [None], [Raise e] is an exception leaving the factory. *)
Definition factory_init_from_deserialized_json (json_obj : gmap string pyvalue)
    : result (option t) :=
  let dataset_name := get_or_None json_obj "dataset_name" in
  let category := get_or_None json_obj "category" in
  let raw_data := get_or_None json_obj "data" in
  let data_loc := get_or_None json_obj "data_location" in
  try_except
    (rbind (factory_try_body json_obj dataset_name category raw_data data_loc)
           (fun obj => Ok (Some obj)))
    (fun e => Ok None).
End Factory.

Section Serialise.
(** [DataDomain.to_dict], which lives in [dmod.core]. *)
Variable DataDomain_to_dict : DataDomain -> pyvalue.

(** [serial[key] = value] only [if value is not None]. *)
Definition set_unless_None (serial : gmap string pyvalue) (key : string) (value : pyvalue)
    : gmap string pyvalue :=
  if is_None value then serial else <[ key := value ]> serial.

Definition to_dict (self : t) : gmap string pyvalue :=
  let serial : gmap string pyvalue :=
    {[ "action" := management_action self;
       "category" := data_category self;
       "read_only" := is_read_only_dataset self;
       "pending_data" := is_pending_data self ]} in
  let serial := set_unless_None serial "dataset_name" (dataset_name self) in
  let serial := set_unless_None serial "category" (data_category self) in
  let serial := set_unless_None serial "data" (data self) in
  let serial := set_unless_None serial "data_location" (data_location self) in
  match data_domain self with
  | Some domain => <[ "data_domain" := DataDomain_to_dict domain ]> serial
  | None => serial
  end.
End Serialise.

End DatasetManagementMessage.

Module Response.
(** Modelled from the spec: the base class [Response] of
    [dmod.communication.message], whose declaration is not among the
    sources: [success], [reason], [message] and an open [data] map, which a
    caller may leave out ([None]). *)
Record t : Type := mk {
  success : bool;
  reason : string;
  message : string;
  data : option (gmap string pyvalue)
}.

(** [self.data[key]]: subscripting [None] is a [TypeError]. *)
Definition data_getitem (self : t) (key : string) : result pyvalue :=
  match data self with
  | Some d => getitem d key
  | None => Raise TypeError
  end.

(** [self.data[key] if key in self.data else None] *)
Definition data_get_or_None (self : t) (key : string) : result pyvalue :=
  match data self with
  | Some d => Ok (get_or_None d key)
  | None => Raise TypeError
  end.
End Response.

Module DatasetManagementResponse.

Definition _DATA_KEY_ACTION : string := "action".
Definition _DATA_KEY_DATA_ID : string := "data_id".
Definition _DATA_KEY_DATASET_NAME : string := "dataset_name".
Definition _DATA_KEY_IS_AWAITING : string := "is_awaiting".

Definition init (success : bool) (reason message : string)
    (data : option (gmap string pyvalue)) : Response.t :=
  let data :=
    match data with
    | None => {[ _DATA_KEY_IS_AWAITING := PyBool false ]}
    | Some data =>
        match data !! _DATA_KEY_IS_AWAITING with
        | None => <[ _DATA_KEY_IS_AWAITING := PyBool false ]> data
        | Some _ => data
        end
    end in
  Response.mk success reason message (Some data).

Definition factory_create (action : ManagementAction.t) (success : bool)
    (reason message : string) (data : option (gmap string pyvalue))
    (is_awaiting : bool) (dataset_name data_id : pyvalue) : Response.t :=
  let data := match data with None => ∅ | Some data => data end in
  let data := <[ _DATA_KEY_ACTION := PyAction action ]> data in
  let data := <[ _DATA_KEY_IS_AWAITING := PyBool is_awaiting ]> data in
  let data := if is_None data_id then data
              else <[ _DATA_KEY_DATA_ID := data_id ]> data in
  let data := if is_None dataset_name then data
              else <[ _DATA_KEY_DATASET_NAME := dataset_name ]> data in
  init success reason message (Some data).

Definition action (self : Response.t) : result pyvalue :=
  Response.data_getitem self _DATA_KEY_ACTION.

Definition data_id (self : Response.t) : result pyvalue :=
  Response.data_get_or_None self _DATA_KEY_DATA_ID.

Definition dataset_name (self : Response.t) : result pyvalue :=
  Response.data_get_or_None self _DATA_KEY_DATASET_NAME.

Definition is_awaiting (self : Response.t) : result pyvalue :=
  Response.data_getitem self _DATA_KEY_IS_AWAITING.

(** The instances the two constructors of the class produce. *)
Inductive constructed : Response.t -> Prop :=
  | constructed_init success reason message data :
      constructed (init success reason message data)
  | constructed_factory action success reason message data is_awaiting
                        dataset_name data_id :
      constructed (factory_create action success reason message data
                                  is_awaiting dataset_name data_id).

End DatasetManagementResponse.

(* ================================================================== *)
(** * scheduler_request.py                                             *)
(* ================================================================== *)

Module SchedulerRequestMessage.

Definition _DEFAULT_ALLOCATION_PARADIGM : string := "SINGLE_NODE".

Definition default_allocation_paradigm_str : string := _DEFAULT_ALLOCATION_PARADIGM.

Section WithModelRequest.
(** The wrapped [ModelExecRequest], a class of [maas_request]. *)
Context {ModelExecRequest : Type}.

Record t : Type := mk {
  model_request : ModelExecRequest;
  user_id : string;
  cpus_unset : bool;
  cpus : pyvalue;
  memory_unset : bool;
  memory : pyvalue;
  allocation_paradigm : string
}.

(** An argument left out takes its default, [None]. *)
Definition init (model_request : ModelExecRequest) (user_id : string)
    (cpus mem allocation_paradigm : pyvalue) : t :=
  let '(cpus_unset, cpus) :=
    if is_None cpus then (true, PyInt 4) else (false, cpus) in
  let '(memory_unset, memory) :=
    if is_None mem then (true, PyInt 500000) else (false, mem) in
  let allocation_paradigm :=
    match allocation_paradigm with
    | PyStr s =>
        if PyString.truthy (PyString.strip s) then s
        else default_allocation_paradigm_str
    | _ => default_allocation_paradigm_str
    end in
  mk model_request user_id cpus_unset cpus memory_unset memory allocation_paradigm.
End WithModelRequest.
Arguments t : clear implicits.

End SchedulerRequestMessage.

Module SchedulerRequestResponse.

Definition job_id (self : Response.t) : result pyvalue :=
  if Response.success self
  then Response.data_getitem self "job_id"
  else Ok (PyInt (-1)).

End SchedulerRequestResponse.

(* ================================================================== *)
(** * websocket_interface.py                                           *)
(* ================================================================== *)

(** [l[index]] on a Python list: a negative index counts from the end, an
    index outside [-len(l) .. len(l)-1] raises [IndexError]. *)
Definition list_getitem {A} (l : list A) (index : Z) : result A :=
  let n := Z.of_nat (length l) in
  let i := if index <? 0 then n + index else index in
  if (0 <=? i) && (i <? n)
  then match l !! Z.to_nat i with
       | Some x => Ok x
       | None => Raise IndexError
       end
  else Raise IndexError.

Module WebSocketInterface.
Section Tasks.
(** Coroutines handed to the service, and the [asyncio.Task] handles the
    event loop returns for them. *)
Context {Coro Task : Type}.
Variable create_task : Coro -> Task.

Record t : Type := mk {
  _requested_tasks : list Coro;
  _scheduled_tasks : list Task
}.

(** The two collections as [__init__] leaves them. *)
Definition init : t := mk [] [].

Definition add_async_task (self : t) (coro : Coro) : Z * t :=
  let next_index := Z.of_nat (length (_requested_tasks self)) in
  let requested := _requested_tasks self ++ [coro] in
  let scheduled :=
    if 0 <? Z.of_nat (length (_scheduled_tasks self))
    then _scheduled_tasks self ++ [create_task coro]
    else _scheduled_tasks self in
  (next_index, mk requested scheduled).

(** The scheduling part of [run]: every requested coroutine becomes a
    task, then the server itself, last. *)
Definition run_schedule (self : t) (server : Coro) : t :=
  let scheduled :=
    fold_left (fun acc requested_coro => acc ++ [create_task requested_coro])
              (_requested_tasks self) (_scheduled_tasks self) in
  mk (_requested_tasks self ++ [server]) (scheduled ++ [create_task server]).

(** [Ok (Some task)] is a returned task, [Ok None] is the implicit
    [return None] after the [if], [Raise e] an exception. *)
Definition get_task_object (self : t) (index : Z) : result (option Task) :=
  if Z.of_nat (length (_scheduled_tasks self)) >? index
  then rbind (list_getitem (_scheduled_tasks self) index) (fun task => Ok (Some task))
  else Ok None.
End Tasks.
Arguments t : clear implicits.

Section SSLFiles.
(** File system paths ([pathlib.Path]), [Path.joinpath], and the directory
    [ssl] beside the module's own directory, which [__init__] computes
    from [__file__]. *)
Context {Path : Type}.
Variable joinpath : Path -> string -> Path.
Variable module_ssl_dir : Path.

(** [ssl_dir.joinpath(name)], where [ssl_dir] may be [None], which has no
    such method. *)
Definition ssl_dir_joinpath (ssl_dir : option Path) (name : string) : result Path :=
  match ssl_dir with
  | Some dir => Ok (joinpath dir name)
  | None => Raise (AttributeError "joinpath")
  end.

(** The part of [__init__] that settles the SSL files: the value it leaves
    in [self.ssl_dir] and the certificate and key files it loads. *)
Definition init_ssl_files (ssl_dir cert_pem priv_key_pem : option Path)
    : result (option Path * Path * Path) :=
  let self_ssl_dir := ssl_dir in
  let self_ssl_dir :=
    match self_ssl_dir, cert_pem, priv_key_pem with
    | None, None, _ | None, _, None => Some module_ssl_dir
    | _, _, _ => self_ssl_dir
    end in
  rbind (match cert_pem with
         | None => ssl_dir_joinpath ssl_dir "certificate.pem"
         | Some cert_pem => Ok cert_pem
         end) (fun cert_pem =>
  rbind (match priv_key_pem with
         | None => ssl_dir_joinpath ssl_dir "privkey.pem"
         | Some priv_key_pem => Ok priv_key_pem
         end) (fun priv_key_pem =>
  Ok (self_ssl_dir, cert_pem, priv_key_pem))).
End SSLFiles.

(** Modelled from the spec: the enumeration [MessageEventType] of
    [dmod.communication.message], whose declaration is not among the
    sources.  The sources name five members; every other member is an
    [OTHER_EVENT]. *)
Inductive MessageEventType : Type :=
  | SESSION_INIT
  | MODEL_EXEC_REQUEST
  | DATASET_MANAGEMENT
  | SCHEDULER_REQUEST
  | INVALID
  | OTHER_EVENT (label : string).

Definition MessageEventType_eqb (a b : MessageEventType) : bool :=
  match a, b with
  | SESSION_INIT, SESSION_INIT => true
  | MODEL_EXEC_REQUEST, MODEL_EXEC_REQUEST => true
  | DATASET_MANAGEMENT, DATASET_MANAGEMENT => true
  | SCHEDULER_REQUEST, SCHEDULER_REQUEST => true
  | INVALID, INVALID => true
  | OTHER_EVENT x, OTHER_EVENT y => String.eqb x y
  | _, _ => false
  end.

Section RequestType.
(** The received data, the error a validator reports, the members of
    [MessageEventType] in iteration order, and the [validate] methods of the
    two validators of [dmod.communication.validator]. *)
Context {Data Error : Type}.
Variable MessageEventType_members : list MessageEventType.
Variable SessionInitMessageJsonValidator_validate : Data -> bool * option Error.
Variable NWMRequestJsonValidator_validate : Data -> bool * option Error.

(** [errors[key] = error] on the dict of errors, kept as its items. *)
Fixpoint errors_set (errors : list (MessageEventType * option Error))
    (key : MessageEventType) (error : option Error)
    : list (MessageEventType * option Error) :=
  match errors with
  | [] => [(key, error)]
  | (k, x) :: rest =>
      if MessageEventType_eqb k key then (k, error) :: rest
      else (k, x) :: errors_set rest key error
  end.

(** [errors.get(key)]: the entry under [key], if there is one. *)
Fixpoint errors_get (errors : list (MessageEventType * option Error))
    (key : MessageEventType) : option (option Error) :=
  match errors with
  | [] => None
  | (k, x) :: rest =>
      if MessageEventType_eqb k key then Some x else errors_get rest key
  end.

Definition parse_request_type (data : Data) (check_for_auth : bool)
    : MessageEventType * list (MessageEventType * option Error) :=
  let errors :=
    map (fun t => (t, None))
        (filter (fun t => MessageEventType_eqb t INVALID = false)
                MessageEventType_members) in
  let after_auth :=
    if check_for_auth then
      let '(is_auth_req, error) := SessionInitMessageJsonValidator_validate data in
      let errors := errors_set errors SESSION_INIT error in
      if is_auth_req then inl (SESSION_INIT, errors) else inr errors
    else inr errors in
  match after_auth with
  | inl returned => returned
  | inr errors =>
      let '(is_job_req, error) := NWMRequestJsonValidator_validate data in
      let errors := errors_set errors MODEL_EXEC_REQUEST error in
      if is_job_req then (MODEL_EXEC_REQUEST, errors) else (INVALID, errors)
  end.
End RequestType.

End WebSocketInterface.

Module WebSocketSessionsInterface.
Section Sessions.
(** Sessions as the dict tells them apart (their [__eq__] and [__hash__]),
    the websockets they are keyed to, and [session.session_id], which may
    be [None]. *)
Context {Session WebSocket SessionId : Type} `{Countable Session}.
Variable session_id : Session -> option SessionId.

(** [self._sessions_to_websockets[session] = websocket] *)
Definition register_websocket_session (sessions : gmap Session WebSocket)
    (websocket : WebSocket) (session : Session) : gmap Session WebSocket :=
  <[ session := websocket ]> sessions.

(** The argument [session] may be [None]. *)
Definition unregister_websocket_session (sessions : gmap Session WebSocket)
    (session : option Session) : gmap Session WebSocket :=
  match session with
  | None => sessions
  | Some session =>
      match session_id session with
      | None => sessions
      | Some _ =>
          match sessions !! session with
          | Some _ => delete session sessions
          | None => sessions
          end
      end
  end.
End Sessions.
End WebSocketSessionsInterface.

(* ================================================================== *)
(** * dmod.scheduler.job                                               *)
(* ================================================================== *)

(** Modelled from the spec: the enumeration [JobExecStep] of
    [dmod.scheduler.job], whose declaration is not among the sources.
    Steps outside partitioning only matter as labels. *)
Inductive JobExecStep : Type :=
  | AWAITING_PARTITIONING
  | AWAITING_ALLOCATION
  | PARTITIONING_FAILED
  | OTHER_STEP (label : string).

(** Modelled from the spec: the class [Job] of [dmod.scheduler.job], whose
    declaration is not among the sources, with the four attributes the
    service reads and writes.  The service mutates the job objects the
    store hands out; here each job is a value and an update yields the
    updated job. *)
Record Job : Type := mkJob {
  job_id : string;
  data_requirements : list DataRequirement;
  cpu_count : Z;
  status_step : JobExecStep
}.

Definition set_status_step (job : Job) (step : JobExecStep) : Job :=
  {| job_id := job_id job;
     data_requirements := data_requirements job;
     cpu_count := cpu_count job;
     status_step := step |}.

(** [job.data_requirements.append(requirement)] *)
Definition append_data_requirement (job : Job) (requirement : DataRequirement) : Job :=
  {| job_id := job_id job;
     data_requirements := data_requirements job ++ [requirement];
     cpu_count := cpu_count job;
     status_step := status_step job |}.

Definition DataCategory_eqb (a b : DataCategory) : bool :=
  match a, b with
  | CONFIG, CONFIG => true
  | HYDROFABRIC, HYDROFABRIC => true
  | OTHER_CATEGORY x, OTHER_CATEGORY y => String.eqb x y
  | _, _ => false
  end.

Definition JobExecStep_eqb (a b : JobExecStep) : bool :=
  match a, b with
  | AWAITING_PARTITIONING, AWAITING_PARTITIONING => true
  | AWAITING_ALLOCATION, AWAITING_ALLOCATION => true
  | PARTITIONING_FAILED, PARTITIONING_FAILED => true
  | OTHER_STEP x, OTHER_STEP y => String.eqb x y
  | _, _ => false
  end.

(* ================================================================== *)
(** * partitionerservice/service.py                                    *)
(* ================================================================== *)

Module ServiceManager.
Import ManagementAction.

(** The inner loop of [_find_required_hydrofabric_details], over the
    items of one requirement's discrete restrictions.  [inl] is the
    [return data_id, uid] inside the loop; [inr] is the end of the loop
    with the two local variables as they stand.  A restriction whose
    [values] do not have length 1 is passed over ([continue]); otherwise
    [value0] is [restriction.values[0]]. *)
Fixpoint scan_restrictions (items : list (string * DiscreteRestriction))
    (data_id uid : pyvalue) : (pyvalue * pyvalue) + (pyvalue * pyvalue) :=
  match items with
  | [] => inr (data_id, uid)
  | (variable, restriction) :: rest =>
      match values restriction with
      | [value0] =>
          if String.eqb variable "data_id" then
            let data_id := value0 in
            if negb (is_None uid) then inl (data_id, uid)
            else scan_restrictions rest data_id uid
          else if String.eqb variable "uid" then
            let uid := value0 in
            if negb (is_None data_id) then inl (data_id, uid)
            else scan_restrictions rest data_id uid
          else scan_restrictions rest data_id uid
      | _ => scan_restrictions rest data_id uid
      end
  end.

(** The outer loop, over the requirements of category [HYDROFABRIC]. *)
Fixpoint scan_requirements (requirements : list DataRequirement)
    (data_id uid : pyvalue) : pyvalue * pyvalue :=
  match requirements with
  | [] => (data_id, uid)
  | requirement :: rest =>
      match scan_restrictions (discrete_restrictions (domain requirement)) data_id uid with
      | inl found => found
      | inr (data_id, uid) => scan_requirements rest data_id uid
      end
  end.

Definition _find_required_hydrofabric_details (job : Job) : pyvalue * pyvalue :=
  scan_requirements
    (filter (fun r => DataCategory_eqb (category r) HYDROFABRIC = true)
            (data_requirements job))
    PyNone PyNone.

Section Service.
(** Everything outside the process: the data service, the Docker
    daemon, the job store and the source of random uuids. *)
Variable World : Type.

(** A computation that reads and changes the world and may raise. *)
Definition M (A : Type) : Type := World -> result A * World.

Definition ret {A} (a : A) : M A := fun w => (Ok a, w).
Definition raise {A} (e : exn) : M A := fun w => (Raise e, w).
Definition bind {A B} (m : M A) (k : A -> M B) : M B :=
  fun w =>
    match m w with
    | (Ok a, w') => k a w'
    | (Raise e, w') => (Raise e, w')
    end.
Definition lift {A} (r : result A) : M A := fun w => (r, w).
Definition try_catch {A} (body : M A) (handler : exn -> M A) : M A :=
  fun w =>
    match body w with
    | (Ok a, w') => (Ok a, w')
    | (Raise e, w') => handler e w'
    end.

Notation "'let*' x ':=' m 'in' k" := (bind m (fun x => k))
  (at level 10, x name, m at level 100, k at level 200, only parsing).
Notation "'let*' ' p ':=' m 'in' k" := (bind m (fun x => let 'p := x in k))
  (at level 10, p pattern, m at level 100, k at level 200, only parsing).

(** [self._data_client.async_make_request] *)
Variable async_make_request : DatasetManagementMessage.t -> M Response.t.
(** [str(uuid4())] *)
Variable uuid4 : M string.
(** [self._docker_util.run_container(image, command, remove)], which
    returns the container's output. *)
Variable run_container : string -> list pyvalue -> bool -> M string.
(** [self._job_util.get_all_active_jobs] and [save_job] *)
Variable get_all_active_jobs : M (list Job).
Variable save_job : Job -> M unit.
(** [self._image_name] *)
Variable _image_name : string.

Definition _async_create_new_partitioning_dataset : M (pyvalue * pyvalue) :=
  let* id := uuid4 in
  let dataset_name := "partition-config-" +:+ id in
  let* request := lift (DatasetManagementMessage.init
                          (PyAction CREATE) (PyStr dataset_name) (PyBool false)
                          (PyCategory CONFIG) PyNone PyNone (PyBool false)) in
  let* response := async_make_request request in
  if Response.success response
  then (let* data_id := lift (DatasetManagementResponse.data_id response) in
        ret (PyStr dataset_name, data_id))
  else ret (PyNone, PyNone).

Definition _async_find_hydrofabric_dataset_name (data_id uid : pyvalue) : M pyvalue :=
  let* data_request := lift (DatasetManagementMessage.init
                          (PyAction SEARCH) PyNone (PyBool false)
                          (PyCategory HYDROFABRIC) PyNone PyNone (PyBool false)) in
  let restrictions := [mkDiscreteRestriction "data_id" [data_id];
                       mkDiscreteRestriction "uid" [uid]] in
  let data_request :=
    DatasetManagementMessage.set_data_domain data_request
      (Some (DataDomain_init NGEN_GEOJSON_HYDROFABRIC restrictions)) in
  let* response := async_make_request data_request in
  if Response.success response
  then lift (DatasetManagementResponse.dataset_name response)
  else ret PyNone.

Definition partitioner_command (num_partitions : Z)
    (hydrofabric_dataset_name partition_dataset_name : pyvalue)
    (catchment_file_name nexus_file_name : pyvalue)
    (nexus_id_subset_str catchment_id_subset_str : string) : list pyvalue :=
  [PyStr "--hydrofabric-dataset"; hydrofabric_dataset_name;
   PyStr "--partition-dataset"; partition_dataset_name;
   PyStr "--num-partitions"; PyStr (pretty num_partitions);
   PyStr "--catchment-data-file"; catchment_file_name;
   PyStr "--nexus-data-file"; nexus_file_name;
   PyStr "--nexus-subset"; PyStr nexus_id_subset_str;
   PyStr "--catchment-subset"; PyStr catchment_id_subset_str].

Definition _execute_partitioner_container (num_partitions : Z)
    (hydrofabric_dataset_name partition_dataset_name : pyvalue)
    (catchment_file_name nexus_file_name : pyvalue)
    (nexus_id_subset_str catchment_id_subset_str : string)
    : M (bool * option string) :=
  let catchment_file_name :=
    if is_None catchment_file_name then PyStr "catchment_data.geojson"
    else catchment_file_name in
  let nexus_file_name :=
    if is_None nexus_file_name then PyStr "nexus_data.geojson"
    else nexus_file_name in
  let command :=
    partitioner_command num_partitions hydrofabric_dataset_name
      partition_dataset_name catchment_file_name nexus_file_name
      nexus_id_subset_str catchment_id_subset_str in
  try_catch
    (let* logs := run_container _image_name command true in
     ret (true, Some logs))
    (fun e =>
       match e with
       | ContainerError => ret (false, None)
       | _ => raise (RuntimeError
                "Could not successfully execute partitioner Docker container: {}"
                (Some e))
       end).

(** [err_msg.format(what)] *)
Definition err_msg (job : Job) (what : string) : string :=
  what +:+ " for job " +:+ job_id job +:+ " awaiting partitioning.".

(** The [try] block of [manage_job_partitioning] for one job; the value
    is the job as the block leaves it. *)
Definition partition_job (job : Job) : M Job :=
  let '(hy_data_id, hy_uid) := _find_required_hydrofabric_details job in
  if is_None hy_data_id || is_None hy_uid
  then raise (DmodRuntimeError (err_msg job "Cannot get hydrofabric dataset details"))
  else
  let* hydrofabric_dataset_name := _async_find_hydrofabric_dataset_name hy_data_id hy_uid in
  if is_None hydrofabric_dataset_name
  then raise (DmodRuntimeError (err_msg job "Cannot find hydrofabric dataset name"))
  else
  let* '(part_dataset_name, part_dataset_data_id) := _async_create_new_partitioning_dataset in
  if is_None part_dataset_name || is_None part_dataset_data_id
  then raise (DmodRuntimeError (err_msg job "Cannot create new partition config dataset"))
  else
  let* '(result, logs) := _execute_partitioner_container (cpu_count job)
                        hydrofabric_dataset_name part_dataset_name
                        PyNone PyNone "" "" in
  if result : bool then
    let data_id_restriction := mkDiscreteRestriction "data_id" [part_dataset_data_id] in
    let domain := DataDomain_init NGEN_PARTITION_CONFIG [data_id_restriction] in
    let requirement := mkDataRequirement domain true CONFIG part_dataset_name in
    let job := append_data_requirement job requirement in
    ret (set_status_step job AWAITING_ALLOCATION)
  else ret (set_status_step job PARTITIONING_FAILED).

(** [try: self._job_util.save_job(job)  except: pass] *)
Definition save_job_protected (job : Job) : M unit :=
  try_catch (save_job job) (fun _ => ret tt).

(** The body of the [for job in ...] loop; the value is the job as the
    iteration leaves it. *)
Definition manage_one_job (job : Job) : M Job :=
  if negb (JobExecStep_eqb (status_step job) AWAITING_PARTITIONING)
  then ret job
  else
    let* job := try_catch (partition_job job)
             (fun e => ret (set_status_step job PARTITIONING_FAILED)) in
    let* _ := save_job_protected job in
    ret job.

Fixpoint manage_jobs (jobs : list Job) : M (list Job) :=
  match jobs with
  | [] => ret []
  | job :: rest =>
      let* job := manage_one_job job in
      let* rest := manage_jobs rest in
      ret (job :: rest)
  end.

(** One pass of the [while True] loop of [manage_job_partitioning], up
    to the [asyncio.sleep]: the active jobs as the pass leaves them. *)
Definition polling_pass : M (list Job) :=
  let* jobs := get_all_active_jobs in
  manage_jobs jobs.

End Service.
Arguments ret {World A} a.
Arguments raise {World A} e.
Arguments bind {World A B} m k.
Arguments lift {World A} r.
Arguments try_catch {World A} body handler.

(** The message [_async_find_hydrofabric_dataset_name] sends. *)
Definition search_request (data_id uid : pyvalue) : DatasetManagementMessage.t :=
  DatasetManagementMessage.mk
    (PyAction SEARCH) PyNone (PyBool false) (PyCategory HYDROFABRIC)
    (Some (DataDomain_init NGEN_GEOJSON_HYDROFABRIC
             [mkDiscreteRestriction "data_id" [data_id];
              mkDiscreteRestriction "uid" [uid]]))
    PyNone PyNone (PyBool false).

(** The message [_async_create_new_partitioning_dataset] sends. *)
Definition create_request (dataset_name : string) : DatasetManagementMessage.t :=
  DatasetManagementMessage.mk
    (PyAction CREATE) (PyStr dataset_name) (PyBool false) (PyCategory CONFIG)
    None PyNone PyNone (PyBool false).

(** The command [manage_job_partitioning] has the partitioner run with. *)
Definition job_partitioner_command (job : Job)
    (hydrofabric_dataset_name partition_dataset_name : pyvalue) : list pyvalue :=
  partitioner_command (cpu_count job) hydrofabric_dataset_name partition_dataset_name
    (PyStr "catchment_data.geojson") (PyStr "nexus_data.geojson") "" "".

(** The requirement [manage_job_partitioning] appends on success. *)
Definition partition_config_requirement
    (part_dataset_name part_dataset_data_id : pyvalue) : DataRequirement :=
  mkDataRequirement
    (DataDomain_init NGEN_PARTITION_CONFIG
       [mkDiscreteRestriction "data_id" [part_dataset_data_id]])
    true CONFIG part_dataset_name.

(** Modelled from the spec: the class [PartitionRequest] of
    [dmod.communication], whose declaration is not among the sources: the
    number of partitions asked for and the hydrofabric's [data_id] and
    unique id. *)
Record PartitionRequest : Type := mkPartitionRequest {
  num_partitions : Z;
  hydrofabric_data_id : pyvalue;
  hydrofabric_uid : pyvalue
}.

(** The command [_async_process_request] has the partitioner run with. *)
Definition request_partitioner_command (request : PartitionRequest)
    (hydrofabric_dataset_name partition_dataset_name : pyvalue) : list pyvalue :=
  partitioner_command (num_partitions request) hydrofabric_dataset_name
    partition_dataset_name (PyStr "catchment_data.geojson") (PyStr "nexus_data.geojson")
    "" "".

(** [e.__class__.__name__] *)
Definition class_name (e : exn) : string :=
  match e with
  | KeyError _ => "KeyError"
  | IndexError => "IndexError"
  | AttributeError _ => "AttributeError"
  | TypeError => "TypeError"
  | RuntimeError _ _ => "RuntimeError"
  | DmodRuntimeError _ => "DmodRuntimeError"
  | ContainerError => "ContainerError"
  | OtherException cls => cls
  end.

(** [e.__cause__.__class__.__name__]: the class of the exception [e] was
    raised [from], and the class of [None] when there is none. *)
Definition cause_class_name (e : exn) : string :=
  match e with
  | RuntimeError _ (Some cause) => class_name cause
  | _ => "NoneType"
  end.

Section RequestPath.
Variable World : Type.
Variable async_make_request : DatasetManagementMessage.t -> M World Response.t.
Variable uuid4 : M World string.
Variable run_container : string -> list pyvalue -> bool -> M World string.
Variable _image_name : string.
(** [PartitionResponse], a class of [dmod.communication]: its constructor
    (with [success], [reason] and [message], which a call may leave out)
    and its [factory_create] (with [dataset_name], [dataset_data_id],
    [reason]). *)
Context {PartitionResponse : Type}.
Variable PartitionResponse_init : bool -> string -> option string -> PartitionResponse.
Variable PartitionResponse_factory_create : pyvalue -> pyvalue -> string -> PartitionResponse.
(** Whether an exception of a class declared outside the sources derives
    from [RuntimeError], and [str(e)]. *)
Variable derives_from_RuntimeError : exn -> bool.
Variable str_exn : exn -> string.

Notation "'let*' x ':=' m 'in' k" := (bind m (fun x => k))
  (at level 10, x name, m at level 100, k at level 200, only parsing).
Notation "'let*' ' p ':=' m 'in' k" := (bind m (fun x => let 'p := x in k))
  (at level 10, p pattern, m at level 100, k at level 200, only parsing).

(** What [except RuntimeError] catches. *)
Definition is_RuntimeError (e : exn) : bool :=
  match e with
  | RuntimeError _ _ => true
  | KeyError _ | IndexError | AttributeError _ | TypeError | ContainerError => false
  | DmodRuntimeError _ | OtherException _ => derives_from_RuntimeError e
  end.

(** The body of the [try] block of [_async_process_request]. *)
Definition process_request_try (request : PartitionRequest) : M World PartitionResponse :=
  let* hydrofabric_dataset_name :=
    _async_find_hydrofabric_dataset_name World async_make_request
      (hydrofabric_data_id request) (hydrofabric_uid request) in
  match hydrofabric_dataset_name with
  | PyStr _ =>
      let catchment_file_name := PyNone in
      let nexus_file_name := PyNone in
      let* '(partition_dataset_name, partition_dataset_data_id) :=
        _async_create_new_partitioning_dataset World async_make_request uuid4 in
      if is_None partition_dataset_name
      then ret (PartitionResponse_init false "Dataset Create Failed" None)
      else
        let* '(result, logs) :=
          _execute_partitioner_container World run_container _image_name
            (num_partitions request) hydrofabric_dataset_name partition_dataset_name
            catchment_file_name nexus_file_name "" "" in
        ret (PartitionResponse_factory_create partition_dataset_name
               partition_dataset_data_id "Partitioning Complete")
  | _ => ret (PartitionResponse_init false "Could Not Find Hydrofabric Dataset" None)
  end.

Definition _async_process_request (request : PartitionRequest) : M World PartitionResponse :=
  try_catch (process_request_try request)
    (fun e =>
       if is_RuntimeError e
       then ret (PartitionResponse_init false (cause_class_name e) (Some (str_exn e)))
       else raise e).
End RequestPath.

End ServiceManager.

(* ================================================================== *)
(** * Vocabulary for the statements about the service                *)
(* ================================================================== *)

(** [requirement] binds [var] through a discrete restriction with the
    single allowed value [v]. *)
Definition binds (requirement : DataRequirement) (var : string) (v : pyvalue) : Prop :=
  exists restriction,
    In (var, restriction) (discrete_restrictions (domain requirement))
    /\ values restriction = [v].

(** The restrictions [items] bind [var] to the single allowed value [v]. *)
Definition items_bind (items : list (string * DiscreteRestriction)) (var : string)
    (v : pyvalue) : Prop :=
  exists restriction, In (var, restriction) items /\ values restriction = [v].

(** What a loop hands on, whether by [return] or by running to its end. *)
Definition either_way {A : Type} (r : A + A) : A :=
  match r with
  | inl a => a
  | inr a => a
  end.

(** The allowed values of the job's hydrofabric restrictions are proper
    values: none of them is [None]. *)
Definition hydrofabric_values_not_None (job : Job) : Prop :=
  forall requirement var restriction v,
    In requirement (data_requirements job) ->
    category requirement = HYDROFABRIC ->
    In (var, restriction) (discrete_restrictions (domain requirement)) ->
    In v (values restriction) ->
    v <> PyNone.

(** No allowed value among [items] is [None]. *)
Definition items_not_None (items : list (string * DiscreteRestriction)) : Prop :=
  forall var restriction v,
    In (var, restriction) items -> In v (values restriction) -> is_None v = false.

(** [items] hold a restriction of [var] with a single allowed value. *)
Definition has_single (items : list (string * DiscreteRestriction)) (var : string) : Prop :=
  exists restriction v, In (var, restriction) items /\ values restriction = [v].

(** [add_async_task] called for each of [coros] in turn: the indexes the
    calls returned, and the service after the last one. *)
Fixpoint add_async_tasks {Coro Task : Type} (create_task : Coro -> Task)
    (self : WebSocketInterface.t Coro Task) (coros : list Coro)
    : list Z * WebSocketInterface.t Coro Task :=
  match coros with
  | [] => ([], self)
  | coro :: rest =>
      let '(index, self) := WebSocketInterface.add_async_task create_task self coro in
      let '(indexes, self) := add_async_tasks create_task self rest in
      (index :: indexes, self)
  end.

(** The indexes [first], [first + 1], ... of [n] consecutive tasks. *)
Definition indexes_from (first : nat) (n : nat) : list Z :=
  map Z.of_nat (seq first n).

(* ================================================================== *)
(** * A concrete deployment                                            *)
(* ================================================================== *)

(** A job store with a running job and a job awaiting partitioning, a data
    service that finds the hydrofabric and creates what it is asked to, a
    job store whose [save_job] fails, and a world with nothing to record. *)
Module Example.
Import ServiceManager ManagementAction.

Definition hydrofabric_requirement : DataRequirement :=
  mkDataRequirement
    (DataDomain_init NGEN_GEOJSON_HYDROFABRIC
       [mkDiscreteRestriction "data_id" [PyStr "hf-data-1"];
        mkDiscreteRestriction "uid" [PyStr "hf-uid-1"]])
    true HYDROFABRIC PyNone.

(** The same requirement with two candidate values for [uid]. *)
Definition ambiguous_requirement : DataRequirement :=
  mkDataRequirement
    (DataDomain_init NGEN_GEOJSON_HYDROFABRIC
       [mkDiscreteRestriction "data_id" [PyStr "hf-data-1"];
        mkDiscreteRestriction "uid" [PyStr "hf-uid-1"; PyStr "hf-uid-2"]])
    true HYDROFABRIC PyNone.

Definition running_job : Job := mkJob "job-0" [] 2 (OTHER_STEP "RUNNING").
Definition waiting_job : Job :=
  mkJob "job-1" [hydrofabric_requirement] 4 AWAITING_PARTITIONING.
Definition ambiguous_job : Job :=
  mkJob "job-2" [ambiguous_requirement] 4 AWAITING_PARTITIONING.

Definition data_service (request : DatasetManagementMessage.t) : M unit Response.t :=
  fun w =>
    match DatasetManagementMessage.management_action request with
    | PyAction SEARCH =>
        (Ok (DatasetManagementResponse.factory_create SEARCH true "Found" "" None
               false (PyStr "hydrofabric-1") PyNone), w)
    | PyAction CREATE =>
        (Ok (DatasetManagementResponse.factory_create CREATE true "Created" "" None
               false (DatasetManagementMessage.dataset_name request)
               (PyStr "data-id-9")), w)
    | _ => (Raise (OtherException "ConnectionClosed"), w)
    end.

Definition uuid4 : M unit string := fun w => (Ok "0000-0001", w).

Definition docker_ok (image : string) (command : list pyvalue) (remove : bool)
    : M unit string :=
  fun w => (Ok "partitioned", w).

Definition docker_nonzero_exit (image : string) (command : list pyvalue) (remove : bool)
    : M unit string :=
  fun w => (Raise ContainerError, w).

Definition active_jobs (jobs : list Job) : M unit (list Job) := fun w => (Ok jobs, w).

Definition failing_save_job (job : Job) : M unit unit :=
  fun w => (Raise (OtherException "RedisError"), w).

(** A data service that finds nothing, one that is not reachable, a Docker
    daemon that fails, and a partition response reduced to what it is
    built from. *)
Definition data_service_without_match (request : DatasetManagementMessage.t)
    : M unit Response.t :=
  fun w =>
    (Ok (DatasetManagementResponse.factory_create SEARCH false "Not Found" "" None
           false PyNone PyNone), w).

Definition data_service_down (request : DatasetManagementMessage.t) : M unit Response.t :=
  fun w => (Raise (OtherException "ConnectionClosed"), w).

Definition docker_down (image : string) (command : list pyvalue) (remove : bool)
    : M unit string :=
  fun w => (Raise (OtherException "APIError"), w).

Definition partition_response : Type := bool * string * option string * pyvalue * pyvalue.

Definition partition_response_init (success : bool) (reason : string)
    (message : option string) : partition_response :=
  (success, reason, message, PyNone, PyNone).

Definition partition_response_factory_create (dataset_name dataset_data_id : pyvalue)
    (reason : string) : partition_response :=
  (true, reason, None, dataset_name, dataset_data_id).

Definition partition_request : PartitionRequest :=
  mkPartitionRequest 4 (PyStr "hf-data-1") (PyStr "hf-uid-1").

End Example.

(* ================================================================== *)
(** * Properties of the string helpers                                 *)
(* ================================================================== *)

Section StrFacts.
Import PyString.

Lemma isspace_upper_char c : isspace (upper_char c) = isspace c.
Proof. destruct c as [[] [] [] [] [] [] [] []]; reflexivity. Qed.

Lemma upper_char_idem c : upper_char (upper_char c) = upper_char c.
Proof. destruct c as [[] [] [] [] [] [] [] []]; reflexivity. Qed.

Lemma upper_idem s : upper (upper s) = upper s.
Proof. induction s as [|c s IH]; simpl; [reflexivity|]. now rewrite upper_char_idem, IH. Qed.

Lemma lstrip_upper s : lstrip (upper s) = upper (lstrip s).
Proof.
  induction s as [|c s IH]; simpl; [reflexivity|].
  rewrite isspace_upper_char. destruct (isspace c); [exact IH | reflexivity].
Qed.

Lemma rstrip_upper s : rstrip (upper s) = upper (rstrip s).
Proof.
  induction s as [|c s IH]; simpl; [reflexivity|].
  rewrite IH, isspace_upper_char.
  destruct (rstrip s); simpl; [destruct (isspace c)|]; reflexivity.
Qed.

Lemma strip_upper s : strip (upper s) = upper (strip s).
Proof. unfold strip. now rewrite lstrip_upper, rstrip_upper. Qed.

Lemma rstrip_empty_blank s : rstrip s = EmptyString <-> blank s = true.
Proof.
  induction s as [|c s IH]; simpl; [tauto|].
  destruct (rstrip s) eqn:Hr.
  - destruct (isspace c); simpl.
    + split; intros _; [apply IH|]; reflexivity.
    + split; discriminate.
  - split; [discriminate|]. intros H.
    apply andb_prop in H as [_ H]. apply IH in H. discriminate.
Qed.

Lemma blank_lstrip s : blank (lstrip s) = blank s.
Proof.
  induction s as [|c s IH]; simpl; [reflexivity|].
  destruct (isspace c) eqn:Hc; simpl; [exact IH | now rewrite Hc].
Qed.

(** [s.strip()] is false as a condition exactly when [s] is blank. *)
Lemma truthy_strip_blank s : truthy (strip s) = negb (blank s).
Proof.
  unfold strip. rewrite <- (blank_lstrip s).
  destruct (rstrip (lstrip s)) eqn:Hr; simpl.
  - apply rstrip_empty_blank in Hr. now rewrite Hr.
  - destruct (blank (lstrip s)) eqn:Hb; [|reflexivity].
    apply rstrip_empty_blank in Hb. congruence.
Qed.
End StrFacts.

(* ================================================================== *)
(** * ManagementAction.get_for_name                                    *)
(* ================================================================== *)

Section ManagementActionFacts.
Import PyString ManagementAction.

Lemma members_complete (a : t) : In a members.
Proof. destruct a; simpl; tauto. Qed.

Lemma get_for_name_loop_hit (v : t) :
  get_for_name_loop (upper (name v)) members = v.
Proof. destruct v; reflexivity. Qed.

Lemma get_for_name_loop_miss (s : string) (vs : list t) :
  (forall v, s <> upper (name v)) -> get_for_name_loop s vs = UNKNOWN.
Proof.
  intros Hno. induction vs as [|v vs IH]; simpl; [reflexivity|].
  destruct (String.eqb_spec (upper (name v)) s) as [Heq|_]; [|exact IH].
  exfalso. apply (Hno v). now symmetry.
Qed.

(** C8: [get_for_name] is total on strings: its result is always one of the
    declared members.  Matching ignores case: a string whose stripped,
    upper-cased form is the upper-cased name of a member maps to that
    member, two strings that differ only in case map to the same member,
    and [create], [Create] and [CREATE] all map to [CREATE].  A string that
    matches no member's name maps to [UNKNOWN]. *)
Theorem get_for_name_total_case_insensitive :
  (forall s, In (get_for_name s) members)
  /\ (forall s v, upper (strip s) = upper (name v) -> get_for_name s = v)
  /\ (forall s s', upper s = upper s' -> get_for_name s = get_for_name s')
  /\ (get_for_name "create" = CREATE
      /\ get_for_name "Create" = CREATE
      /\ get_for_name "CREATE" = CREATE)
  /\ (forall s, (forall v, upper (strip s) <> upper (name v)) ->
                get_for_name s = UNKNOWN).
Proof.
  repeat split.
  - intros s. apply members_complete.
  - intros s v H. unfold get_for_name. cbv zeta. rewrite H.
    apply get_for_name_loop_hit.
  - intros s s' H. unfold get_for_name. cbv zeta.
    now rewrite <- !strip_upper, H.
  - intros s H. unfold get_for_name. cbv zeta.
    now apply get_for_name_loop_miss.
Qed.

Lemma get_for_name_witness :
  get_for_name "  sEaRcH " = SEARCH
  /\ get_for_name "close_AWAITING" = get_for_name "CLOSE_awaiting"
  /\ get_for_name "no such action" = UNKNOWN.
Proof.
  destruct get_for_name_total_case_insensitive as (_ & Hhit & Hcase & _ & Hmiss).
  split; [|split].
  - apply Hhit. reflexivity.
  - apply Hcase. reflexivity.
  - apply Hmiss. intros v. destruct v; vm_compute; discriminate.
Defined.

End ManagementActionFacts.

(* ================================================================== *)
(** * SchedulerRequestMessage and SchedulerRequestResponse             *)
(* ================================================================== *)

Section SchedulerRequestFacts.
Import PyString.
Context {ModelExecRequest : Type}.
Implicit Types (model_request : ModelExecRequest) (user_id : string).

Lemma is_None_false (v : pyvalue) : v <> PyNone -> is_None v = false.
Proof. destruct v; simpl; congruence. Qed.

(** C7: the defaults of [SchedulerRequestMessage.__init__].  Without [cpus]
    the message has [cpus == 4] and [cpus_unset] set, with [cpus] given it
    keeps the value and clears the marker; likewise [mem] with 500000 and
    [memory_unset].  An allocation paradigm that is left out, [None] or a
    blank string becomes [SINGLE_NODE]; a string that is not blank is kept
    as it is. *)
Theorem SchedulerRequestMessage_init_defaults model_request user_id :
  let init := SchedulerRequestMessage.init model_request user_id in
  (forall mem ap,
      SchedulerRequestMessage.cpus (init PyNone mem ap) = PyInt 4
      /\ SchedulerRequestMessage.cpus_unset (init PyNone mem ap) = true)
  /\ (forall cpus mem ap, cpus <> PyNone ->
      SchedulerRequestMessage.cpus (init cpus mem ap) = cpus
      /\ SchedulerRequestMessage.cpus_unset (init cpus mem ap) = false)
  /\ (forall cpus ap,
      SchedulerRequestMessage.memory (init cpus PyNone ap) = PyInt 500000
      /\ SchedulerRequestMessage.memory_unset (init cpus PyNone ap) = true)
  /\ (forall cpus mem ap, mem <> PyNone ->
      SchedulerRequestMessage.memory (init cpus mem ap) = mem
      /\ SchedulerRequestMessage.memory_unset (init cpus mem ap) = false)
  /\ (forall cpus mem,
      SchedulerRequestMessage.allocation_paradigm (init cpus mem PyNone) = "SINGLE_NODE")
  /\ (forall cpus mem s, blank s = true ->
      SchedulerRequestMessage.allocation_paradigm (init cpus mem (PyStr s)) = "SINGLE_NODE")
  /\ (forall cpus mem s, blank s = false ->
      SchedulerRequestMessage.allocation_paradigm (init cpus mem (PyStr s)) = s).
Proof.
  cbv zeta. unfold SchedulerRequestMessage.init.
  repeat match goal with |- _ /\ _ => split end.
  - intros mem ap. destruct (is_None mem); split; reflexivity.
  - intros cpus mem ap H. rewrite (is_None_false cpus H).
    destruct (is_None mem); split; reflexivity.
  - intros cpus ap. destruct (is_None cpus); split; reflexivity.
  - intros cpus mem ap H. rewrite (is_None_false mem H).
    destruct (is_None cpus); split; reflexivity.
  - intros cpus mem. destruct (is_None cpus), (is_None mem); reflexivity.
  - intros cpus mem s H. destruct (is_None cpus), (is_None mem); simpl;
      rewrite truthy_strip_blank, H; reflexivity.
  - intros cpus mem s H. destruct (is_None cpus), (is_None mem); simpl;
      rewrite truthy_strip_blank, H; reflexivity.
Qed.

End SchedulerRequestFacts.

Lemma SchedulerRequestMessage_init_defaults_witness :
  let m := SchedulerRequestMessage.init tt "user" (PyInt 8) (PyInt 1024) (PyStr " ROUND_ROBIN ") in
  SchedulerRequestMessage.cpus m = PyInt 8
  /\ SchedulerRequestMessage.memory_unset m = false
  /\ SchedulerRequestMessage.allocation_paradigm m = " ROUND_ROBIN "
  /\ SchedulerRequestMessage.allocation_paradigm
       (SchedulerRequestMessage.init tt "user" PyNone PyNone (PyStr "  ")) = "SINGLE_NODE".
Proof.
  destruct (SchedulerRequestMessage_init_defaults tt "user")
    as (_ & Hcpus & _ & Hmem & _ & Hblank & Hkept).
  cbv zeta. split; [|split; [|split]].
  - apply Hcpus. discriminate.
  - apply Hmem. discriminate.
  - apply Hkept. reflexivity.
  - apply Hblank. reflexivity.
Defined.

(** C9: [job_id] of a successful response is the value stored under the
    [job_id] key of its data map; of a failed response it is [-1], whatever
    the data map holds (even none at all). *)
Theorem SchedulerRequestResponse_job_id (r : Response.t) :
  (Response.success r = true ->
     forall d v, Response.data r = Some d -> d !! "job_id" = Some v ->
                 SchedulerRequestResponse.job_id r = Ok v)
  /\ (Response.success r = false ->
     SchedulerRequestResponse.job_id r = Ok (PyInt (-1))).
Proof.
  unfold SchedulerRequestResponse.job_id, Response.data_getitem, getitem.
  split.
  - intros Hs d v Hd Hv. now rewrite Hs, Hd, Hv.
  - intros Hs. now rewrite Hs.
Qed.

Lemma SchedulerRequestResponse_job_id_witness :
  SchedulerRequestResponse.job_id
    (Response.mk true "" "" (Some {[ "job_id" := PyInt 42 ]})) = Ok (PyInt 42)
  /\ SchedulerRequestResponse.job_id
    (Response.mk false "" "" (Some {[ "job_id" := PyInt 42 ]})) = Ok (PyInt (-1))
  /\ SchedulerRequestResponse.job_id (Response.mk false "" "" None) = Ok (PyInt (-1)).
Proof.
  split; [|split].
  - apply (proj1 (SchedulerRequestResponse_job_id
                    (Response.mk true "" "" (Some {[ "job_id" := PyInt 42 ]})))
                 eq_refl {[ "job_id" := PyInt 42 ]}); reflexivity.
  - apply (proj2 (SchedulerRequestResponse_job_id _)). reflexivity.
  - apply (proj2 (SchedulerRequestResponse_job_id _)). reflexivity.
Defined.

(* ================================================================== *)
(** * DatasetManagementMessage                                         *)
(* ================================================================== *)

Section DatasetManagementMessageFacts.
Import ManagementAction DatasetManagementMessage.

Lemma init_Ok (action dataset_name ro category data loc pend : pyvalue) :
  None_and dataset_name (getattr_requires_dataset_name action) = Ok false ->
  None_and category (getattr_requires_data_category action) = Ok false ->
  init action dataset_name ro category data loc pend
  = Ok (mk action dataset_name ro category None data loc pend).
Proof. intros H1 H2. unfold init. rewrite H1. simpl. rewrite H2. reflexivity. Qed.

(** C5: for an action that requires a dataset name, construction without a
    name raises (a [RuntimeError]), and construction with a name succeeds
    once the category is there if the action requires one; the same holds,
    the other way round, for an action that requires a data category. *)
Theorem DatasetManagementMessage_init_required_fields
    (a : ManagementAction.t) (ro data loc pend : pyvalue) :
  (requires_dataset_name a = true ->
     (forall category, exists msg,
         init (PyAction a) PyNone ro category data loc pend
         = Raise (RuntimeError msg None))
     /\ (forall name category,
         name <> PyNone ->
         (requires_data_category a = true -> category <> PyNone) ->
         exists m, init (PyAction a) name ro category data loc pend = Ok m
                   /\ management_action m = PyAction a
                   /\ dataset_name m = name
                   /\ data_category m = category))
  /\ (requires_data_category a = true ->
     (forall name, exists msg,
         init (PyAction a) name ro PyNone data loc pend
         = Raise (RuntimeError msg None))
     /\ (forall name category,
         category <> PyNone ->
         (requires_dataset_name a = true -> name <> PyNone) ->
         exists m, init (PyAction a) name ro category data loc pend = Ok m
                   /\ management_action m = PyAction a
                   /\ dataset_name m = name
                   /\ data_category m = category)).
Proof.
  assert (Hok : forall name category,
             (requires_dataset_name a = true -> name <> PyNone) ->
             (requires_data_category a = true -> category <> PyNone) ->
             exists m, init (PyAction a) name ro category data loc pend = Ok m
                       /\ management_action m = PyAction a
                       /\ dataset_name m = name
                       /\ data_category m = category).
  { intros name category Hn Hc. eexists. split; [apply init_Ok|simpl; auto].
    - unfold None_and. simpl. destruct (is_None name) eqn:E; [|reflexivity].
      destruct (requires_dataset_name a); [|reflexivity].
      destruct name; try discriminate E. now destruct Hn.
    - unfold None_and. simpl. destruct (is_None category) eqn:E; [|reflexivity].
      destruct (requires_data_category a); [|reflexivity].
      destruct category; try discriminate E. now destruct Hc. }
  split; intros Hreq; split.
  - intros category. unfold init. simpl. rewrite Hreq. simpl. eauto.
  - intros name category Hn Hc. apply Hok; auto.
  - intros name. unfold init, None_and. simpl.
    destruct (is_None name); simpl.
    + destruct (requires_dataset_name a); simpl; [eauto|].
      rewrite Hreq. simpl. eauto.
    + rewrite Hreq. simpl. eauto.
  - intros name category Hc Hn. apply Hok; auto.
Qed.

Lemma DatasetManagementMessage_init_required_fields_witness :
  (exists msg, init (PyAction CREATE) PyNone (PyBool false) (PyCategory CONFIG)
                    PyNone PyNone (PyBool false) = Raise (RuntimeError msg None))
  /\ (exists m, init (PyAction CREATE) (PyStr "partition-config-1") (PyBool false)
                     (PyCategory CONFIG) PyNone PyNone (PyBool false) = Ok m
                /\ management_action m = PyAction CREATE
                /\ dataset_name m = PyStr "partition-config-1"
                /\ data_category m = PyCategory CONFIG)
  /\ (exists msg, init (PyAction SEARCH) PyNone (PyBool false) PyNone
                       PyNone PyNone (PyBool false) = Raise (RuntimeError msg None)).
Proof.
  split; [|split].
  - apply (proj1 (DatasetManagementMessage_init_required_fields
                    CREATE (PyBool false) PyNone PyNone (PyBool false)) eq_refl).
  - apply (proj1 (DatasetManagementMessage_init_required_fields
                    CREATE (PyBool false) PyNone PyNone (PyBool false)) eq_refl);
      intros; discriminate.
  - apply (proj2 (DatasetManagementMessage_init_required_fields
                    SEARCH (PyBool false) PyNone PyNone (PyBool false)) eq_refl).
Defined.

(** C6: whatever dict it is given, and whatever the nested domain parser
    does, [factory_init_from_deserialized_json] returns: either an
    instance or [None], never an exception.  In particular it returns
    [None] when one of the keys [action], [read_only] or [pending_data] is
    missing, when the constructor rejects the fields, and when parsing the
    nested domain raises. *)
Theorem factory_init_from_deserialized_json_never_raises
    (parse_domain : pyvalue -> result (option DataDomain))
    (json_obj : gmap string pyvalue) :
  let factory := factory_init_from_deserialized_json parse_domain in
  ((exists obj, factory json_obj = Ok (Some obj)) \/ factory json_obj = Ok None)
  /\ (json_obj !! "action" = None \/ json_obj !! "read_only" = None
      \/ json_obj !! "pending_data" = None ->
      factory json_obj = Ok None)
  /\ (forall action ro pend e,
      json_obj !! "action" = Some action ->
      json_obj !! "read_only" = Some ro ->
      json_obj !! "pending_data" = Some pend ->
      init action (get_or_None json_obj "dataset_name") ro
           (get_or_None json_obj "category") (get_or_None json_obj "data")
           (get_or_None json_obj "data_location") pend = Raise e ->
      factory json_obj = Ok None)
  /\ (forall raw e,
      json_obj !! "data_domain" = Some raw -> parse_domain raw = Raise e ->
      factory json_obj = Ok None).
Proof.
  cbv zeta. unfold factory_init_from_deserialized_json, try_except. cbv zeta.
  set (body := factory_try_body _ _ _ _ _ _).
  repeat match goal with |- _ /\ _ => split end.
  - destruct body; simpl; eauto.
  - intros H. subst body. unfold factory_try_body, getitem.
    destruct (json_obj !! "action"); simpl; [|reflexivity].
    destruct (json_obj !! "read_only"); simpl; [|reflexivity].
    destruct (json_obj !! "pending_data"); simpl; [|reflexivity].
    destruct H as [H|[H|H]]; discriminate H.
  - intros action ro pend e Ha Hr Hp Hinit. subst body.
    unfold factory_try_body, getitem. rewrite Ha, Hr, Hp. simpl.
    rewrite Hinit. reflexivity.
  - intros raw e Hraw Hparse. subst body. unfold factory_try_body.
    rewrite Hraw.
    destruct (getitem json_obj "action"); simpl; [|reflexivity].
    destruct (getitem json_obj "read_only"); simpl; [|reflexivity].
    destruct (getitem json_obj "pending_data"); simpl; [|reflexivity].
    destruct (init _ _ _ _ _ _ _); simpl; [|reflexivity].
    rewrite Hparse. reflexivity.
Qed.

Lemma factory_init_from_deserialized_json_witness :
  factory_init_from_deserialized_json (fun _ => Raise (KeyError "data_format"))
    {[ "action" := PyStr "CREATE"; "read_only" := PyBool false ]} = Ok None
  /\ factory_init_from_deserialized_json (fun _ => Raise (KeyError "data_format"))
    {[ "action" := PyAction CREATE; "read_only" := PyBool false;
       "pending_data" := PyBool false; "category" := PyCategory CONFIG ]} = Ok None.
Proof.
  split.
  - apply (proj1 (proj2 (factory_init_from_deserialized_json_never_raises _ _))).
    right. right. reflexivity.
  - eapply (proj1 (proj2 (proj2 (factory_init_from_deserialized_json_never_raises _ _))));
      reflexivity.
Defined.

End DatasetManagementMessageFacts.

(* ================================================================== *)
(** * DatasetManagementResponse                                        *)
(* ================================================================== *)

Section DatasetManagementResponseFacts.
Import DatasetManagementResponse.

Lemma init_data (success : bool) (reason message : string)
    (data : option (gmap string pyvalue)) :
  exists d, Response.data (init success reason message data) = Some d
    /\ d !! _DATA_KEY_IS_AWAITING
       = Some (match data with
               | Some d0 => default (PyBool false) (d0 !! _DATA_KEY_IS_AWAITING)
               | None => PyBool false
               end).
Proof.
  unfold init. destruct data as [d0|]; simpl.
  - destruct (d0 !! _DATA_KEY_IS_AWAITING) as [v|] eqn:E; simpl.
    + exists d0. auto.
    + eexists. split; [reflexivity|]. apply lookup_insert_eq.
  - eexists. split; [reflexivity|]. apply lookup_singleton_eq.
Qed.

Lemma is_awaiting_init (success : bool) (reason message : string)
    (data : option (gmap string pyvalue)) :
  is_awaiting (init success reason message data)
  = Ok (match data with
        | Some d0 => default (PyBool false) (d0 !! _DATA_KEY_IS_AWAITING)
        | None => PyBool false
        end).
Proof.
  destruct (init_data success reason message data) as (d & Hd & Hv).
  unfold is_awaiting, Response.data_getitem, getitem. now rewrite Hd, Hv.
Qed.

Lemma factory_create_lookup (action : ManagementAction.t) (data : option (gmap string pyvalue))
    (is_awaiting : bool) (dataset_name data_id : pyvalue) :
  let d0 := match data with None => ∅ | Some data => data end in
  let d1 := <[ _DATA_KEY_ACTION := PyAction action ]> d0 in
  let d2 := <[ _DATA_KEY_IS_AWAITING := PyBool is_awaiting ]> d1 in
  let d3 := if is_None data_id then d2 else <[ _DATA_KEY_DATA_ID := data_id ]> d2 in
  let d4 := if is_None dataset_name then d3
            else <[ _DATA_KEY_DATASET_NAME := dataset_name ]> d3 in
  d4 !! _DATA_KEY_IS_AWAITING = Some (PyBool is_awaiting).
Proof.
  cbv zeta.
  destruct (is_None dataset_name), (is_None data_id);
    repeat (rewrite lookup_insert_ne by discriminate);
    apply lookup_insert_eq.
Qed.

Lemma is_awaiting_factory_create (action : ManagementAction.t) (success : bool)
    (reason message : string) (data : option (gmap string pyvalue))
    (awaiting : bool) (dataset_name data_id : pyvalue) :
  is_awaiting (factory_create action success reason message data awaiting
                              dataset_name data_id)
  = Ok (PyBool awaiting).
Proof.
  unfold factory_create. cbv zeta. rewrite is_awaiting_init.
  pose proof (factory_create_lookup action data awaiting dataset_name data_id) as H.
  cbv zeta in H. rewrite H. reflexivity.
Qed.

(** C10: every response the class constructs has a data map that defines
    [is_awaiting], so the accessor never fails on it.  Built by [__init__]
    with no data, or with a data map that lacks the key, the accessor gives
    [False]; it gives something else only if the caller's data map held
    that value under the key.  Built by [factory_create], it gives the
    [is_awaiting] argument. *)
Theorem DatasetManagementResponse_is_awaiting_defined :
  (forall r, constructed r ->
     exists d v, Response.data r = Some d
                 /\ d !! _DATA_KEY_IS_AWAITING = Some v
                 /\ is_awaiting r = Ok v)
  /\ (forall success reason message,
     is_awaiting (init success reason message None) = Ok (PyBool false))
  /\ (forall success reason message d,
     d !! _DATA_KEY_IS_AWAITING = None ->
     is_awaiting (init success reason message (Some d)) = Ok (PyBool false))
  /\ (forall success reason message data v,
     is_awaiting (init success reason message data) = Ok v ->
     v <> PyBool false ->
     exists d, data = Some d /\ d !! _DATA_KEY_IS_AWAITING = Some v)
  /\ (forall success reason message d,
     d !! _DATA_KEY_IS_AWAITING = Some (PyBool true) ->
     is_awaiting (init success reason message (Some d)) = Ok (PyBool true))
  /\ (forall action success reason message data awaiting dataset_name data_id,
     is_awaiting (factory_create action success reason message data awaiting
                                 dataset_name data_id) = Ok (PyBool awaiting)).
Proof.
  repeat match goal with |- _ /\ _ => split end.
  - intros r Hr. destruct Hr as [s re m data | a s re m data aw dn di].
    + destruct (init_data s re m data) as (d & Hd & Hv).
      exists d. eexists. split; [exact Hd|]. split; [exact Hv|].
      apply is_awaiting_init.
    + unfold factory_create. cbv zeta.
      match goal with |- context [init s re m ?x] =>
        destruct (init_data s re m x) as (d & Hd & Hv) end.
      exists d. eexists. split; [exact Hd|]. split; [exact Hv|].
      apply is_awaiting_init.
  - intros. apply is_awaiting_init.
  - intros s re m d Hd. rewrite is_awaiting_init, Hd. reflexivity.
  - intros s re m data v Hv Hne. rewrite is_awaiting_init in Hv.
    destruct data as [d|]; [|congruence].
    exists d. split; [reflexivity|].
    destruct (d !! _DATA_KEY_IS_AWAITING) as [x|]; simpl in Hv; congruence.
  - intros s re m d Hd. rewrite is_awaiting_init, Hd. reflexivity.
  - intros. apply is_awaiting_factory_create.
Qed.

Lemma DatasetManagementResponse_is_awaiting_witness :
  (exists d v, Response.data (init true "ok" "" (Some {[ "data_id" := PyStr "7" ]})) = Some d
               /\ d !! _DATA_KEY_IS_AWAITING = Some v
               /\ is_awaiting (init true "ok" "" (Some {[ "data_id" := PyStr "7" ]})) = Ok v)
  /\ is_awaiting (init true "ok" "" (Some {[ "data_id" := PyStr "7" ]})) = Ok (PyBool false)
  /\ is_awaiting (init true "ok" "" (Some {[ "is_awaiting" := PyBool true ]})) = Ok (PyBool true).
Proof.
  destruct DatasetManagementResponse_is_awaiting_defined
    as (Hinv & _ & Hlack & _ & Htrue & _).
  split; [|split].
  - apply Hinv. constructor.
  - apply Hlack. reflexivity.
  - apply Htrue. reflexivity.
Defined.

End DatasetManagementResponseFacts.

(* ================================================================== *)
(** * WebSocketInterface.get_task_object                               *)
(* ================================================================== *)

Section GetTaskObjectFacts.
Import WebSocketInterface.
Context {Coro Task : Type}.
Implicit Types (self : t Coro Task) (index : Z).

(** An index at or past the end of the scheduled tasks gives [None]. *)
Lemma get_task_object_past_end self index :
  Z.of_nat (length (_scheduled_tasks self)) <= index ->
  get_task_object self index = Ok None.
Proof.
  intros H. unfold get_task_object.
  destruct (Z.gtb_spec (Z.of_nat (length (_scheduled_tasks self))) index); [lia|reflexivity].
Qed.

(** A valid index that is not negative gives the task scheduled there. *)
Lemma get_task_object_in_range self index :
  0 <= index < Z.of_nat (length (_scheduled_tasks self)) ->
  exists task, _scheduled_tasks self !! Z.to_nat index = Some task
               /\ get_task_object self index = Ok (Some task).
Proof.
  intros H. unfold get_task_object, list_getitem. cbv zeta.
  destruct (Z.gtb_spec (Z.of_nat (length (_scheduled_tasks self))) index); [|lia].
  destruct (Z.ltb_spec index 0); [lia|].
  destruct (Z.leb_spec 0 index); [|lia].
  destruct (Z.ltb_spec index (Z.of_nat (length (_scheduled_tasks self)))); [|lia].
  simpl.
  destruct (lookup_lt_is_Some_2 (_scheduled_tasks self) (Z.to_nat index)) as [task Ht]; [lia|].
  exists task. rewrite Ht. auto.
Qed.

(** A negative index is not refused: it counts from the end of the
    scheduled tasks when it is within their number, ... *)
Lemma get_task_object_negative_in_range self index :
  - Z.of_nat (length (_scheduled_tasks self)) <= index < 0 ->
  exists task,
    _scheduled_tasks self !! Z.to_nat (Z.of_nat (length (_scheduled_tasks self)) + index)
    = Some task
    /\ get_task_object self index = Ok (Some task).
Proof.
  intros H. unfold get_task_object, list_getitem. cbv zeta.
  set (n := Z.of_nat (length (_scheduled_tasks self))) in *.
  destruct (Z.gtb_spec n index); [|lia].
  destruct (Z.ltb_spec index 0); [|lia].
  destruct (Z.leb_spec 0 (n + index)); [|lia].
  destruct (Z.ltb_spec (n + index) n); [|lia].
  simpl.
  destruct (lookup_lt_is_Some_2 (_scheduled_tasks self) (Z.to_nat (n + index)))
    as [task Ht]; [lia|].
  exists task. rewrite Ht. auto.
Qed.

(** ... and raises [IndexError] when it is below that. *)
Lemma get_task_object_negative_out_of_range self index :
  index < - Z.of_nat (length (_scheduled_tasks self)) ->
  get_task_object self index = Raise IndexError.
Proof.
  intros H. unfold get_task_object, list_getitem. cbv zeta.
  set (n := Z.of_nat (length (_scheduled_tasks self))) in *.
  destruct (Z.gtb_spec n index); [|lia].
  destruct (Z.ltb_spec index 0); [|lia].
  destruct (Z.leb_spec 0 (n + index)); [lia|].
  reflexivity.
Qed.

End GetTaskObjectFacts.

(** C4: [get_task_object] at a negative index.  On a service that has
    scheduled nothing yet, index [-1] raises [IndexError]; on a service
    that ran with one background task, index [-1] returns the handle of
    the task scheduled last (the server's) and index [-3] raises
    [IndexError]: in neither case is the result [None]. *)
Theorem get_task_object_negative_index :
  let create_task := fun coro : string => "Task(" +:+ coro +:+ ")" in
  let fresh := WebSocketInterface.init (Coro := string) (Task := string) in
  let running :=
    WebSocketInterface.run_schedule create_task
      (snd (WebSocketInterface.add_async_task create_task fresh "manage_job_partitioning"))
      "server" in
  WebSocketInterface.get_task_object fresh (-1) = Raise IndexError
  /\ WebSocketInterface._scheduled_tasks running
     = ["Task(manage_job_partitioning)"; "Task(server)"]
  /\ WebSocketInterface.get_task_object running (-1) = Ok (Some "Task(server)")
  /\ WebSocketInterface.get_task_object running (-3) = Raise IndexError
  /\ WebSocketInterface.get_task_object running 1 = Ok (Some "Task(server)")
  /\ WebSocketInterface.get_task_object running 2 = Ok None.
Proof. cbv zeta. repeat split. Qed.

(* ================================================================== *)
(** * ServiceManager: finding the hydrofabric details                  *)
(* ================================================================== *)

Section FindDetailsFacts.
Import ServiceManager.

Lemma is_None_false_iff (v : pyvalue) : is_None v = false <-> v <> PyNone.
Proof. destruct v; simpl; split; congruence. Qed.

Lemma has_single_tail (item : string * DiscreteRestriction) items var :
  has_single (item :: items) var ->
  (fst item <> var \/ length (values (snd item)) <> 1%nat) ->
  has_single items var.
Proof.
  intros (restriction & v & [Heq|Hin] & Hv) Hnot.
  - subst item. simpl in Hnot. rewrite Hv in Hnot. simpl in Hnot.
    destruct Hnot as [Hnot|Hnot]; congruence.
  - exists restriction, v. auto.
Qed.

(** What one requirement's scan guarantees when no allowed value is [None]:
    a [return] inside the loop hands back two proper values, and at the end
    of the loop a variable is set if it was set before or the requirement
    binds it to a single value. *)
Lemma scan_restrictions_spec items : forall data_id uid,
  items_not_None items ->
  match scan_restrictions items data_id uid with
  | inl (d, u) => is_None d = false /\ is_None u = false
  | inr (d, u) =>
      (is_None data_id = false \/ has_single items "data_id" -> is_None d = false)
      /\ (is_None uid = false \/ has_single items "uid" -> is_None u = false)
  end.
Proof.
  induction items as [|[var restriction] rest IH]; intros data_id uid Hok.
  - simpl. split; intros [H|(r & v & [] & _)]; exact H.
  - assert (Hrest : items_not_None rest).
    { intros x r v Hin Hv. apply (Hok x r v); [right; exact Hin | exact Hv]. }
    simpl.
    destruct (values restriction) as [|value0 [|value1 more]] eqn:Hvals.
    + specialize (IH data_id uid Hrest).
      destruct (scan_restrictions rest data_id uid) as [[d u]|[d u]]; [exact IH|].
      destruct IH as [IHd IHu]. split; intros [H|H]; auto.
      * apply IHd. right. apply (has_single_tail _ _ _ H). right. simpl. now rewrite Hvals.
      * apply IHu. right. apply (has_single_tail _ _ _ H). right. simpl. now rewrite Hvals.
    + assert (Hv0 : is_None value0 = false).
      { apply (Hok var restriction value0); [left; reflexivity | rewrite Hvals; left; reflexivity]. }
      destruct (String.eqb_spec var "data_id") as [Hd|Hd].
      * destruct (is_None uid) eqn:Hu; simpl.
        -- specialize (IH value0 uid Hrest).
           destruct (scan_restrictions rest value0 uid) as [[d u]|[d u]]; [exact IH|].
           destruct IH as [IHd IHu]. split; [intros _; apply IHd; left; exact Hv0|].
           intros [H|H]; [congruence|]. apply IHu. right.
           apply (has_single_tail _ _ _ H). left. simpl. subst var. discriminate.
        -- split; [exact Hv0 | exact Hu].
      * destruct (String.eqb_spec var "uid") as [Hu|Hu].
        -- destruct (is_None data_id) eqn:Hdi; simpl.
           ++ specialize (IH data_id value0 Hrest).
              destruct (scan_restrictions rest data_id value0) as [[d u]|[d u]]; [exact IH|].
              destruct IH as [IHd IHu]. split; [|intros _; apply IHu; left; exact Hv0].
              intros [H|H]; [congruence|]. apply IHd. right.
              apply (has_single_tail _ _ _ H). left. simpl. exact Hd.
           ++ split; [exact Hdi | exact Hv0].
        -- specialize (IH data_id uid Hrest).
           destruct (scan_restrictions rest data_id uid) as [[d u]|[d u]]; [exact IH|].
           destruct IH as [IHd IHu]. split; intros [H|H]; auto.
           ++ apply IHd. right. apply (has_single_tail _ _ _ H). left. exact Hd.
           ++ apply IHu. right. apply (has_single_tail _ _ _ H). left. exact Hu.
    + specialize (IH data_id uid Hrest).
      destruct (scan_restrictions rest data_id uid) as [[d u]|[d u]]; [exact IH|].
      destruct IH as [IHd IHu]. split; intros [H|H]; auto.
      * apply IHd. right. apply (has_single_tail _ _ _ H). right. simpl. now rewrite Hvals.
      * apply IHu. right. apply (has_single_tail _ _ _ H). right. simpl. now rewrite Hvals.
Qed.

Lemma scan_requirements_spec requirements : forall data_id uid,
  (forall r, In r requirements -> items_not_None (discrete_restrictions (domain r))) ->
  (is_None data_id = false
   \/ exists r, In r requirements /\ has_single (discrete_restrictions (domain r)) "data_id") ->
  (is_None uid = false
   \/ exists r, In r requirements /\ has_single (discrete_restrictions (domain r)) "uid") ->
  is_None (fst (scan_requirements requirements data_id uid)) = false
  /\ is_None (snd (scan_requirements requirements data_id uid)) = false.
Proof.
  induction requirements as [|r rest IH]; intros data_id uid Hok Hd Hu.
  - simpl. split.
    + destruct Hd as [H|(r & [] & _)]; exact H.
    + destruct Hu as [H|(r & [] & _)]; exact H.
  - simpl.
    pose proof (scan_restrictions_spec (discrete_restrictions (domain r)) data_id uid
                  (Hok r (or_introl eq_refl))) as Hscan.
    destruct (scan_restrictions (discrete_restrictions (domain r)) data_id uid)
      as [[d u]|[d u]]; [exact Hscan|].
    destruct Hscan as [Hsd Hsu].
    apply IH.
    + intros r' Hr'. apply Hok. right. exact Hr'.
    + destruct Hd as [H|(r' & [Heq|Hin] & Hs)].
      * left. apply Hsd. left. exact H.
      * subst r'. left. apply Hsd. right. exact Hs.
      * right. exists r'. auto.
    + destruct Hu as [H|(r' & [Heq|Hin] & Hs)].
      * left. apply Hsu. left. exact H.
      * subst r'. left. apply Hsu. right. exact Hs.
      * right. exists r'. auto.
Qed.

Lemma DataCategory_eqb_eq (a b : DataCategory) : DataCategory_eqb a b = true <-> a = b.
Proof.
  destruct a, b; simpl; split; try congruence; try reflexivity.
  - intros H. apply String.eqb_eq in H. now subst.
  - intros H. injection H as ->. apply String.eqb_refl.
Qed.

(** A job with a hydrofabric requirement that binds both variables to a
    single value resolves to a pair of proper values. *)
Lemma _find_required_hydrofabric_details_found (job : Job) requirement d u :
  hydrofabric_values_not_None job ->
  In requirement (data_requirements job) ->
  category requirement = HYDROFABRIC ->
  binds requirement "data_id" d ->
  binds requirement "uid" u ->
  is_None (fst (_find_required_hydrofabric_details job)) = false
  /\ is_None (snd (_find_required_hydrofabric_details job)) = false.
Proof.
  intros Hok Hin Hcat (rd & Hrd & Hvd) (ru & Hru & Hvu).
  unfold _find_required_hydrofabric_details.
  assert (Hmem : In requirement
            (filter (fun r => DataCategory_eqb (category r) HYDROFABRIC = true)
                    (data_requirements job))).
  { apply list_elem_of_In, list_elem_of_filter. split.
    - now apply DataCategory_eqb_eq.
    - now apply list_elem_of_In. }
  apply scan_requirements_spec.
  - intros r Hr var restriction v Hitem Hv.
    apply list_elem_of_In, list_elem_of_filter in Hr as [Hc Hr].
    apply is_None_false_iff.
    apply (Hok r var restriction v); auto.
    + now apply list_elem_of_In.
    + now apply DataCategory_eqb_eq.
  - right. exists requirement. split; [exact Hmem|]. exists rd, d. auto.
  - right. exists requirement. split; [exact Hmem|]. exists ru, u. auto.
Qed.

(** Restrictions that bind [uid] to several values only never set it. *)
Lemma scan_restrictions_no_uid items : forall data_id,
  (forall restriction, In ("uid", restriction) items ->
                       (1 < length (values restriction))%nat) ->
  exists d, scan_restrictions items data_id PyNone = inr (d, PyNone).
Proof.
  induction items as [|[var restriction] rest IH]; intros data_id Hmulti.
  - simpl. eauto.
  - assert (Hrest : forall r, In ("uid", r) rest -> (1 < length (values r))%nat).
    { intros r Hr. apply Hmulti. right. exact Hr. }
    simpl.
    destruct (values restriction) as [|value0 [|value1 more]] eqn:Hvals; [now apply IH| |now apply IH].
    destruct (String.eqb_spec var "data_id") as [Hd|Hd]; [simpl; now apply IH|].
    destruct (String.eqb_spec var "uid") as [Hu|Hu]; [|now apply IH].
    exfalso. subst var.
    specialize (Hmulti restriction (or_introl eq_refl)).
    rewrite Hvals in Hmulti. simpl in Hmulti. lia.
Qed.

Lemma scan_requirements_no_uid requirements : forall data_id,
  (forall r restriction,
      In r requirements ->
      In ("uid", restriction) (discrete_restrictions (domain r)) ->
      (1 < length (values restriction))%nat) ->
  snd (scan_requirements requirements data_id PyNone) = PyNone.
Proof.
  induction requirements as [|r rest IH]; intros data_id Hmulti; [reflexivity|].
  simpl.
  destruct (scan_restrictions_no_uid (discrete_restrictions (domain r)) data_id) as [d Hd].
  { intros restriction Hin. apply (Hmulti r); [left; reflexivity | exact Hin]. }
  rewrite Hd. apply IH. intros r' restriction Hr' Hin.
  apply (Hmulti r'); [right; exact Hr' | exact Hin].
Qed.

End FindDetailsFacts.

(* ================================================================== *)
(** * ServiceManager: one polling pass                                 *)
(* ================================================================== *)

Section ServiceFacts.
Import ServiceManager ManagementAction.

Variable World : Type.
Variable async_make_request : DatasetManagementMessage.t -> M World Response.t.
Variable uuid4 : M World string.
Variable run_container : string -> list pyvalue -> bool -> M World string.
Variable get_all_active_jobs : M World (list Job).
Variable save_job : Job -> M World unit.
Variable _image_name : string.

Abbreviation find_name := (_async_find_hydrofabric_dataset_name World async_make_request).
Abbreviation create_dataset := (_async_create_new_partitioning_dataset World async_make_request uuid4).
Abbreviation execute := (_execute_partitioner_container World run_container _image_name).
Abbreviation try_partition := (partition_job World async_make_request uuid4 run_container _image_name).
Abbreviation one_job :=
  (manage_one_job World async_make_request uuid4 run_container save_job _image_name).
Abbreviation all_jobs :=
  (manage_jobs World async_make_request uuid4 run_container save_job _image_name).
Abbreviation pass :=
  (polling_pass World async_make_request uuid4 run_container get_all_active_jobs
                save_job _image_name).

Lemma bind_Ok {A B} (m : M World A) (k : A -> M World B) w a w' :
  m w = (Ok a, w') -> bind m k w = k a w'.
Proof. intros H. unfold bind. now rewrite H. Qed.

Lemma bind_Raise {A B} (m : M World A) (k : A -> M World B) w e w' :
  m w = (Raise e, w') -> bind m k w = (Raise e, w').
Proof. intros H. unfold bind. now rewrite H. Qed.

Lemma find_name_eq d u w :
  find_name d u w
  = match async_make_request (search_request d u) w with
    | (Ok response, w') =>
        (if Response.success response
         then lift (DatasetManagementResponse.dataset_name response)
         else ret PyNone) w'
    | (Raise e, w') => (Raise e, w')
    end.
Proof. reflexivity. Qed.

Lemma find_name_Ok d u w response w' name :
  async_make_request (search_request d u) w = (Ok response, w') ->
  Response.success response = true ->
  DatasetManagementResponse.dataset_name response = Ok name ->
  find_name d u w = (Ok name, w').
Proof. intros Hreq Hs Hn. rewrite find_name_eq, Hreq, Hs, Hn. reflexivity. Qed.

Lemma create_dataset_eq w :
  create_dataset w
  = match uuid4 w with
    | (Ok id, w1) =>
        match async_make_request (create_request ("partition-config-" +:+ id)) w1 with
        | (Ok response, w2) =>
            (if Response.success response
             then bind (lift (DatasetManagementResponse.data_id response))
                       (fun data_id => ret (PyStr ("partition-config-" +:+ id), data_id))
             else ret (PyNone, PyNone)) w2
        | (Raise e, w2) => (Raise e, w2)
        end
    | (Raise e, w1) => (Raise e, w1)
    end.
Proof. reflexivity. Qed.

Lemma create_dataset_Ok w id w1 response w2 data_id :
  uuid4 w = (Ok id, w1) ->
  async_make_request (create_request ("partition-config-" +:+ id)) w1 = (Ok response, w2) ->
  Response.success response = true ->
  DatasetManagementResponse.data_id response = Ok data_id ->
  create_dataset w = (Ok (PyStr ("partition-config-" +:+ id), data_id), w2).
Proof.
  intros Hid Hreq Hs Hd. rewrite create_dataset_eq, Hid, Hreq, Hs.
  unfold bind, lift. rewrite Hd. reflexivity.
Qed.

Lemma execute_eq (job : Job) hy_name part_name w :
  execute (cpu_count job) hy_name part_name PyNone PyNone "" "" w
  = match run_container _image_name (job_partitioner_command job hy_name part_name) true w with
    | (Ok logs, w') => (Ok (true, Some logs), w')
    | (Raise e, w') =>
        match e with
        | ContainerError => ret (false, None)
        | _ => raise (RuntimeError
                 "Could not successfully execute partitioner Docker container: {}"
                 (Some e))
        end w'
    end.
Proof.
  unfold _execute_partitioner_container, try_catch, bind, job_partitioner_command.
  simpl is_None. cbv iota.
  destruct (run_container _ _ _ w) as [[logs|e] w']; reflexivity.
Qed.

(** The executor's three outcomes: output, a non-zero exit, anything else. *)
Lemma execute_Ok (job : Job) hy_name part_name w logs w' :
  run_container _image_name (job_partitioner_command job hy_name part_name) true w
  = (Ok logs, w') ->
  execute (cpu_count job) hy_name part_name PyNone PyNone "" "" w
  = (Ok (true, Some logs), w').
Proof.
  intros H. rewrite execute_eq, H. reflexivity.
Qed.

Lemma execute_ContainerError (job : Job) hy_name part_name w w' :
  run_container _image_name (job_partitioner_command job hy_name part_name) true w
  = (Raise ContainerError, w') ->
  execute (cpu_count job) hy_name part_name PyNone PyNone "" "" w
  = (Ok (false, None), w').
Proof.
  intros H. rewrite execute_eq, H. reflexivity.
Qed.

Lemma execute_other_error (job : Job) hy_name part_name w e w' :
  run_container _image_name (job_partitioner_command job hy_name part_name) true w
  = (Raise e, w') ->
  e <> ContainerError ->
  execute (cpu_count job) hy_name part_name PyNone PyNone "" "" w
  = (Raise (RuntimeError
              "Could not successfully execute partitioner Docker container: {}"
              (Some e)), w').
Proof.
  intros H Hne. rewrite execute_eq, H. destruct e; try reflexivity. congruence.
Qed.

(** The loop body always completes: no exception leaves it. *)
Lemma manage_one_job_total (job : Job) w :
  exists job' w', one_job job w = (Ok job', w').
Proof.
  unfold manage_one_job.
  destruct (negb (JobExecStep_eqb (status_step job) AWAITING_PARTITIONING)).
  - unfold ret. eauto.
  - unfold bind, save_job_protected, try_catch, ret.
    destruct (try_partition job w) as [[j|e] w1].
    + destruct (save_job j w1) as [[[]|e] w2]; do 2 eexists; reflexivity.
    + destruct (save_job (set_status_step job PARTITIONING_FAILED) w1) as [[[]|e2] w2];
        do 2 eexists; reflexivity.
Qed.

(** A job awaiting partitioning leaves the loop body as the [try] block
    left it, or marked failed when the block raised. *)
Lemma manage_one_job_awaiting (job : Job) w :
  status_step job = AWAITING_PARTITIONING ->
  exists w',
    one_job job w
    = (Ok (match fst (try_partition job w) with
           | Ok job' => job'
           | Raise _ => set_status_step job PARTITIONING_FAILED
           end), w').
Proof.
  intros Hs. unfold manage_one_job. rewrite Hs. simpl.
  unfold bind, save_job_protected, try_catch, ret.
  destruct (try_partition job w) as [[j|e] w1]; simpl.
  - destruct (save_job j w1) as [[[]|e] w2]; eexists; reflexivity.
  - destruct (save_job (set_status_step job PARTITIONING_FAILED) w1) as [[[]|e2] w2];
      eexists; reflexivity.
Qed.

Lemma manage_jobs_total (jobs : list Job) : forall w,
  exists jobs' w', all_jobs jobs w = (Ok jobs', w').
Proof.
  induction jobs as [|job rest IH]; intros w; simpl.
  - unfold ret. eauto.
  - destruct (manage_one_job_total job w) as (job' & w1 & H1).
    destruct (IH w1) as (rest' & w2 & H2).
    erewrite bind_Ok by exact H1. erewrite bind_Ok by exact H2.
    unfold ret. eauto.
Qed.

(** The job at position [length pre] of the pass's result is what the loop
    body makes of it in the world the jobs before it left behind. *)
Lemma manage_jobs_middle (pre : list Job) (job : Job) (post : list Job) : forall w job' w1,
  one_job job (snd (all_jobs pre w)) = (Ok job', w1) ->
  exists jobs' w', all_jobs (pre ++ job :: post) w = (Ok jobs', w')
                   /\ jobs' !! length pre = Some job'.
Proof.
  induction pre as [|p pre IH]; intros w job' w1 Hjob; simpl in *.
  - destruct (manage_jobs_total post w1) as (post' & w2 & H2).
    erewrite bind_Ok by exact Hjob. erewrite bind_Ok by exact H2.
    unfold ret. eauto.
  - destruct (manage_one_job_total p w) as (p' & wp & Hp).
    erewrite bind_Ok in Hjob by exact Hp.
    destruct (manage_jobs_total pre wp) as (pre' & wpre & Hpre).
    erewrite bind_Ok in Hjob by exact Hpre. unfold ret in Hjob. simpl in Hjob.
    destruct (IH wp job' w1) as (jobs' & w' & Hall & Hlook).
    { rewrite Hpre. exact Hjob. }
    erewrite bind_Ok by exact Hp. erewrite bind_Ok by exact Hall.
    unfold ret. exists (p' :: jobs'), w'. auto.
Qed.

Lemma polling_pass_job w w0 pre job post job' w1 :
  get_all_active_jobs w = (Ok (pre ++ job :: post), w0) ->
  one_job job (snd (all_jobs pre w0)) = (Ok job', w1) ->
  exists jobs' w', pass w = (Ok jobs', w') /\ jobs' !! length pre = Some job'.
Proof.
  intros Hjobs Hjob. unfold polling_pass.
  erewrite bind_Ok by exact Hjobs.
  eapply manage_jobs_middle. exact Hjob.
Qed.

(** The [try] block once the lookup and the dataset creation went through:
    what is left is the executor's outcome. *)
Lemma partition_job_executed (job : Job) w d u hy_name w1 part_name part_id w3 :
  _find_required_hydrofabric_details job = (d, u) ->
  is_None d = false -> is_None u = false ->
  find_name d u w = (Ok hy_name, w1) -> is_None hy_name = false ->
  create_dataset w1 = (Ok (part_name, part_id), w3) ->
  is_None part_name = false -> is_None part_id = false ->
  try_partition job w
  = match execute (cpu_count job) hy_name part_name PyNone PyNone "" "" w3 with
    | (Ok (true, _), w4) =>
        (Ok (set_status_step
               (append_data_requirement job
                  (partition_config_requirement part_name part_id))
               AWAITING_ALLOCATION), w4)
    | (Ok (false, _), w4) => (Ok (set_status_step job PARTITIONING_FAILED), w4)
    | (Raise e, w4) => (Raise e, w4)
    end.
Proof.
  intros Hfind Hd Hu Hname Hn Hcreate Hpn Hpi.
  unfold partition_job. rewrite Hfind, Hd, Hu. cbn [orb].
  erewrite bind_Ok by exact Hname. rewrite Hn.
  erewrite bind_Ok by exact Hcreate. cbv beta iota. rewrite Hpn, Hpi. cbn [orb].
  unfold bind.
  destruct (execute (cpu_count job) hy_name part_name PyNone PyNone "" "" w3)
    as [[[[|] logs]|e] w4]; reflexivity.
Qed.

(** C1: a job awaiting partitioning whose hydrofabric requirement binds
    [data_id] and [uid] to single values, in a pass where the data service
    answers the SEARCH request with success and a dataset name, answers the
    CREATE request with success and a [data_id], and the executor returns:
    the pass leaves the job in [AWAITING_ALLOCATION] with exactly one more
    data requirement, of category [CONFIG], whose domain restricts
    [data_id] to the new dataset's [data_id] and which is fulfilled by the
    new dataset's name. *)
Theorem partitioning_success_advances_job
    w w0 (pre : list Job) (job : Job) (post : list Job)
    requirement d u search_response hy_name w1 id w2 create_response new_id w3 logs w4 :
  get_all_active_jobs w = (Ok (pre ++ job :: post), w0) ->
  status_step job = AWAITING_PARTITIONING ->
  hydrofabric_values_not_None job ->
  In requirement (data_requirements job) ->
  category requirement = HYDROFABRIC ->
  binds requirement "data_id" d ->
  binds requirement "uid" u ->
  let wj := snd (all_jobs pre w0) in
  let hy := _find_required_hydrofabric_details job in
  let new_name := "partition-config-" +:+ id in
  async_make_request (search_request (fst hy) (snd hy)) wj = (Ok search_response, w1) ->
  Response.success search_response = true ->
  DatasetManagementResponse.dataset_name search_response = Ok hy_name ->
  hy_name <> PyNone ->
  uuid4 w1 = (Ok id, w2) ->
  async_make_request (create_request new_name) w2 = (Ok create_response, w3) ->
  Response.success create_response = true ->
  DatasetManagementResponse.data_id create_response = Ok new_id ->
  new_id <> PyNone ->
  run_container _image_name (job_partitioner_command job hy_name (PyStr new_name)) true w3
  = (Ok logs, w4) ->
  exists jobs' w' job',
    pass w = (Ok jobs', w')
    /\ jobs' !! length pre = Some job'
    /\ job_id job' = job_id job
    /\ status_step job' = AWAITING_ALLOCATION
    /\ exists added,
         data_requirements job' = data_requirements job ++ [added]
         /\ category added = CONFIG
         /\ discrete_restrictions (domain added)
            = [("data_id", mkDiscreteRestriction "data_id" [new_id])]
         /\ fulfilled_by added = PyStr new_name.
Proof.
  intros Hjobs Hstatus Hvals Hin Hcat Hbd Hbu wj hy new_name
         Hsearch Hss Hsn Hhy Hid Hcreate Hcs Hcd Hnew Hrun.
  destruct (_find_required_hydrofabric_details_found job requirement d u
              Hvals Hin Hcat Hbd Hbu) as [Hd Hu].
  fold hy in Hd, Hu.
  destruct (manage_one_job_awaiting job wj Hstatus) as [w' Hone].
  rewrite (partition_job_executed job wj (fst hy) (snd hy) hy_name w1
             (PyStr new_name) new_id w3) in Hone; auto.
  - rewrite (execute_Ok job hy_name (PyStr new_name) w3 logs w4 Hrun) in Hone.
    cbn [fst] in Hone.
    destruct (polling_pass_job w w0 pre job post _ w' Hjobs Hone)
      as (jobs' & wend & Hpass & Hlook).
    exists jobs', wend. eexists. split; [exact Hpass|]. split; [exact Hlook|].
    split; [reflexivity|]. split; [reflexivity|].
    eexists. split; [reflexivity|]. repeat split.
  - subst hy. now destruct (_find_required_hydrofabric_details job).
  - eapply find_name_Ok; eassumption.
  - now apply is_None_false_iff.
  - eapply create_dataset_Ok; eassumption.
  - now apply is_None_false_iff.
Qed.

(** C2: same pass, but the container exits with a non-zero code
    ([ContainerError]).  [_execute_partitioner_container] returns
    [(False, None)] instead of raising, and the pass leaves the job in
    [PARTITIONING_FAILED] with the data requirements it had. *)
Theorem partitioning_container_error_fails_job
    w w0 (pre : list Job) (job : Job) (post : list Job)
    d u hy_name w1 part_name part_id w3 w4 :
  get_all_active_jobs w = (Ok (pre ++ job :: post), w0) ->
  status_step job = AWAITING_PARTITIONING ->
  let wj := snd (all_jobs pre w0) in
  _find_required_hydrofabric_details job = (d, u) ->
  d <> PyNone -> u <> PyNone ->
  find_name d u wj = (Ok hy_name, w1) -> hy_name <> PyNone ->
  create_dataset w1 = (Ok (part_name, part_id), w3) ->
  part_name <> PyNone -> part_id <> PyNone ->
  run_container _image_name (job_partitioner_command job hy_name part_name) true w3
  = (Raise ContainerError, w4) ->
  execute (cpu_count job) hy_name part_name PyNone PyNone "" "" w3 = (Ok (false, None), w4)
  /\ exists jobs' w' job',
       pass w = (Ok jobs', w')
       /\ jobs' !! length pre = Some job'
       /\ status_step job' = PARTITIONING_FAILED
       /\ data_requirements job' = data_requirements job.
Proof.
  intros Hjobs Hstatus wj Hfind Hd Hu Hname Hhy Hcreate Hpn Hpi Hrun.
  pose proof (execute_ContainerError job hy_name part_name w3 w4 Hrun) as Hexec.
  split; [exact Hexec|].
  destruct (manage_one_job_awaiting job wj Hstatus) as [w' Hone].
  rewrite (partition_job_executed job wj d u hy_name w1 part_name part_id w3) in Hone;
    try (apply is_None_false_iff); auto.
  rewrite Hexec in Hone. cbn [fst] in Hone.
  destruct (polling_pass_job w w0 pre job post _ w' Hjobs Hone)
    as (jobs' & wend & Hpass & Hlook).
  exists jobs', wend. eexists. split; [exact Hpass|]. split; [exact Hlook|].
  split; reflexivity.
Qed.

(** C3: a job awaiting partitioning whose hydrofabric requirements bind
    [uid] through restrictions of more than one allowed value only: the
    extraction finds no [uid], and the pass leaves the job in
    [PARTITIONING_FAILED]. *)
Theorem multi_valued_uid_fails_job
    w w0 (pre : list Job) (job : Job) (post : list Job) :
  get_all_active_jobs w = (Ok (pre ++ job :: post), w0) ->
  status_step job = AWAITING_PARTITIONING ->
  (forall requirement restriction,
      In requirement (data_requirements job) ->
      category requirement = HYDROFABRIC ->
      In ("uid", restriction) (discrete_restrictions (domain requirement)) ->
      (1 < length (values restriction))%nat) ->
  snd (_find_required_hydrofabric_details job) = PyNone
  /\ exists jobs' w' job',
       pass w = (Ok jobs', w')
       /\ jobs' !! length pre = Some job'
       /\ status_step job' = PARTITIONING_FAILED
       /\ data_requirements job' = data_requirements job.
Proof.
  intros Hjobs Hstatus Hmulti.
  assert (Huid : snd (_find_required_hydrofabric_details job) = PyNone).
  { unfold _find_required_hydrofabric_details. apply scan_requirements_no_uid.
    intros r restriction Hr Hitem.
    apply list_elem_of_In, list_elem_of_filter in Hr as [Hc Hr].
    apply (Hmulti r restriction); auto.
    - now apply list_elem_of_In.
    - now apply DataCategory_eqb_eq. }
  split; [exact Huid|].
  destruct (manage_one_job_awaiting job (snd (all_jobs pre w0)) Hstatus) as [w' Hone].
  assert (Htry : exists e wf, try_partition job (snd (all_jobs pre w0)) = (Raise e, wf)).
  { unfold partition_job.
    destruct (_find_required_hydrofabric_details job) as [hy_data_id hy_uid].
    simpl in Huid. subst hy_uid. cbn [is_None]. rewrite orb_true_r.
    unfold raise. eauto. }
  destruct Htry as (e & wf & Htry). rewrite Htry in Hone. cbn [fst] in Hone.
  destruct (polling_pass_job w w0 pre job post _ w' Hjobs Hone)
    as (jobs' & wend & Hpass & Hlook).
  exists jobs', wend. eexists. split; [exact Hpass|]. split; [exact Hlook|].
  split; reflexivity.
Qed.

(** What the [try] block can make of a job: it fails it, or appends the
    requirement for a new partition config and advances it. *)
Lemma partition_job_result (job : Job) w job' w' :
  try_partition job w = (Ok job', w') ->
  job' = set_status_step job PARTITIONING_FAILED
  \/ exists d u search_response w1 hy_name id w2 create_response w3 new_id logs,
       _find_required_hydrofabric_details job = (d, u)
       /\ d <> PyNone /\ u <> PyNone
       /\ async_make_request (search_request d u) w = (Ok search_response, w1)
       /\ Response.success search_response = true
       /\ DatasetManagementResponse.dataset_name search_response = Ok hy_name
       /\ hy_name <> PyNone
       /\ uuid4 w1 = (Ok id, w2)
       /\ async_make_request (create_request ("partition-config-" +:+ id)) w2
          = (Ok create_response, w3)
       /\ Response.success create_response = true
       /\ DatasetManagementResponse.data_id create_response = Ok new_id
       /\ new_id <> PyNone
       /\ run_container _image_name
            (job_partitioner_command job hy_name (PyStr ("partition-config-" +:+ id)))
            true w3 = (Ok logs, w')
       /\ job' = set_status_step
                   (append_data_requirement job
                      (partition_config_requirement
                         (PyStr ("partition-config-" +:+ id)) new_id))
                   AWAITING_ALLOCATION.
Proof.
  unfold partition_job.
  destruct (_find_required_hydrofabric_details job) as [d u] eqn:Hfind.
  destruct (is_None d) eqn:Hd; [discriminate|].
  destruct (is_None u) eqn:Hu; [discriminate|]. cbn [orb].
  unfold bind at 1. rewrite find_name_eq.
  destruct (async_make_request (search_request d u) w) as [[rs|e] w1] eqn:Hsearch;
    [|discriminate].
  destruct (Response.success rs) eqn:Hss; unfold lift, ret; [|discriminate].
  destruct (DatasetManagementResponse.dataset_name rs) as [hy_name|e] eqn:Hname;
    [|discriminate].
  destruct (is_None hy_name) eqn:Hhy; [discriminate|].
  unfold bind at 1. rewrite create_dataset_eq.
  destruct (uuid4 w1) as [[id|e] w2] eqn:Hid; [|discriminate].
  destruct (async_make_request (create_request ("partition-config-" +:+ id)) w2)
    as [[rc|e] w3] eqn:Hcreate; [|discriminate].
  destruct (Response.success rc) eqn:Hcs; unfold bind at 1, lift, ret;
    [|discriminate].
  destruct (DatasetManagementResponse.data_id rc) as [new_id|e] eqn:Hnew;
    [|discriminate].
  cbn [is_None orb]. destruct (is_None new_id) eqn:Hni; [discriminate|].
  unfold bind. rewrite execute_eq.
  destruct (run_container _image_name
              (job_partitioner_command job hy_name (PyStr ("partition-config-" +:+ id)))
              true w3) as [[logs|e] w4] eqn:Hrun.
  - intros [= <- <-]. right.
    exists d, u, rs, w1, hy_name, id, w2, rc, w3, new_id, logs.
    repeat split; auto; apply is_None_false_iff; assumption.
  - destruct e; unfold ret, raise; try discriminate.
    intros [= <- <-]. left. reflexivity.
Qed.

(** X12: what a pass can do to a job awaiting partitioning.  The loop body
    always completes, leaves [job_id] and [cpu_count] alone, and ends in
    one of two ways: the job is [PARTITIONING_FAILED] with the data
    requirements it had, or it is [AWAITING_ALLOCATION] with its data
    requirements followed by the one new partition-config requirement. *)
Theorem manage_one_job_outcome (job : Job) w :
  status_step job = AWAITING_PARTITIONING ->
  exists job' w',
    one_job job w = (Ok job', w')
    /\ job_id job' = job_id job
    /\ cpu_count job' = cpu_count job
    /\ ((status_step job' = PARTITIONING_FAILED
         /\ data_requirements job' = data_requirements job)
        \/ (status_step job' = AWAITING_ALLOCATION
            /\ exists name id,
                 data_requirements job'
                 = data_requirements job ++ [partition_config_requirement name id])).
Proof.
  intros Hs. destruct (manage_one_job_awaiting job w Hs) as [w' Hone].
  eexists. exists w'. split; [exact Hone|].
  destruct (try_partition job w) as [[j|e] w1] eqn:Htry; cbn [fst].
  - destruct (partition_job_result job w j w1 Htry)
      as [-> | (d & u & rs & w2 & hy & id & w3 & rc & w4 & new_id & logs & H)].
    + repeat split. left. split; reflexivity.
    + destruct H as (_ & _ & _ & _ & _ & _ & _ & _ & _ & _ & _ & _ & _ & ->).
      repeat split. right. split; [reflexivity|]. eauto.
  - repeat split. left. split; reflexivity.
Qed.

(** X13: a job is advanced only when every step went through.  If the pass
    leaves an awaiting job in [AWAITING_ALLOCATION], then the job resolved
    to a [data_id] and a [uid], the data service answered the SEARCH
    request with success and a dataset name, a uuid was drawn, the data
    service answered the CREATE request with success and a [data_id], and
    the container run returned. *)
Theorem job_advanced_only_on_success (job : Job) w job' w' :
  status_step job = AWAITING_PARTITIONING ->
  one_job job w = (Ok job', w') ->
  status_step job' = AWAITING_ALLOCATION ->
  exists d u search_response w1 hy_name id w2 create_response w3 new_id logs w4,
    _find_required_hydrofabric_details job = (d, u)
    /\ d <> PyNone /\ u <> PyNone
    /\ async_make_request (search_request d u) w = (Ok search_response, w1)
    /\ Response.success search_response = true
    /\ DatasetManagementResponse.dataset_name search_response = Ok hy_name
    /\ hy_name <> PyNone
    /\ uuid4 w1 = (Ok id, w2)
    /\ async_make_request (create_request ("partition-config-" +:+ id)) w2
       = (Ok create_response, w3)
    /\ Response.success create_response = true
    /\ DatasetManagementResponse.data_id create_response = Ok new_id
    /\ new_id <> PyNone
    /\ run_container _image_name
         (job_partitioner_command job hy_name (PyStr ("partition-config-" +:+ id)))
         true w3 = (Ok logs, w4).
Proof.
  intros Hs Hone Hadv.
  destruct (manage_one_job_awaiting job w Hs) as [w'' Hone'].
  rewrite Hone in Hone'. injection Hone' as Hjob _.
  destruct (try_partition job w) as [[j|e] w1] eqn:Htry; cbn [fst] in Hjob.
  - subst j.
    destruct (partition_job_result job w job' w1 Htry)
      as [-> | (d & u & rs & w2 & hy & id & w3 & rc & w4 & new_id & logs & H)].
    + discriminate Hadv.
    + exists d, u, rs, w2, hy, id, w3, rc, w4, new_id, logs, w1.
      tauto.
  - subst job'. discriminate Hadv.
Qed.

(** X14: a failing [save_job] changes nothing about the outcome: the job
    the loop body yields is the same whatever the job store's [save_job]
    does, and the body completes even when saving raises. *)
Theorem save_failure_is_swallowed (other_save_job : Job -> M World unit) (job : Job) w :
  fst (one_job job w)
  = fst (manage_one_job World async_make_request uuid4 run_container other_save_job
           _image_name job w)
  /\ exists job' w', one_job job w = (Ok job', w').
Proof.
  split; [|apply manage_one_job_total].
  unfold manage_one_job.
  destruct (negb (JobExecStep_eqb (status_step job) AWAITING_PARTITIONING));
    [reflexivity|].
  unfold bind, save_job_protected, try_catch, ret.
  destruct (try_partition job w) as [[j|e] w1].
  - destruct (save_job j w1) as [[[]|e1] w2], (other_save_job j w1) as [[[]|e2] w3];
      reflexivity.
  - destruct (save_job (set_status_step job PARTITIONING_FAILED) w1) as [[[]|e1] w2],
      (other_save_job (set_status_step job PARTITIONING_FAILED) w1) as [[[]|e2] w3];
      reflexivity.
Qed.

Lemma JobExecStep_eqb_eq (a b : JobExecStep) : JobExecStep_eqb a b = true <-> a = b.
Proof.
  destruct a, b; simpl; split; try congruence; try reflexivity.
  - intros H. apply String.eqb_eq in H. now subst.
  - intros H. injection H as ->. apply String.eqb_refl.
Qed.

Lemma manage_one_job_not_awaiting (job : Job) w :
  status_step job <> AWAITING_PARTITIONING ->
  one_job job w = (Ok job, w).
Proof.
  intros Hs. unfold manage_one_job.
  destruct (JobExecStep_eqb (status_step job) AWAITING_PARTITIONING) eqn:E.
  - apply JobExecStep_eqb_eq in E. contradiction.
  - reflexivity.
Qed.

(** X15: jobs that do not await partitioning are passed over.  A pass over
    jobs none of which is [AWAITING_PARTITIONING] returns them as they are
    and leaves the world as it found it: no request, no container run, no
    save. *)
Theorem manage_jobs_nothing_to_do (jobs : list Job) w :
  Forall (fun job => status_step job <> AWAITING_PARTITIONING) jobs ->
  all_jobs jobs w = (Ok jobs, w).
Proof.
  induction 1 as [|job rest Hjob _ IH]; [reflexivity|].
  cbn [manage_jobs].
  erewrite bind_Ok by (apply manage_one_job_not_awaiting; exact Hjob).
  erewrite bind_Ok by exact IH. reflexivity.
Qed.

(** X16: a pass settles every job it is given.  It completes whatever the
    collaborators do, returns as many jobs as it was given, in the same
    order and with the same ids, and none of them still awaits
    partitioning, so that a second pass over its result does nothing. *)
Theorem manage_jobs_settles_all (jobs : list Job) w :
  exists jobs' w',
    all_jobs jobs w = (Ok jobs', w')
    /\ map job_id jobs' = map job_id jobs
    /\ Forall (fun job => status_step job <> AWAITING_PARTITIONING) jobs'
    /\ forall w'', all_jobs jobs' w'' = (Ok jobs', w'').
Proof.
  assert (Hmain : exists jobs' w',
             all_jobs jobs w = (Ok jobs', w')
             /\ map job_id jobs' = map job_id jobs
             /\ Forall (fun job => status_step job <> AWAITING_PARTITIONING) jobs').
  { revert w. induction jobs as [|job rest IH]; intros w.
    - exists [], w. repeat split. constructor.
    - assert (Hjob : exists job' w1, one_job job w = (Ok job', w1)
                       /\ job_id job' = job_id job
                       /\ status_step job' <> AWAITING_PARTITIONING).
      { destruct (JobExecStep_eqb (status_step job) AWAITING_PARTITIONING) eqn:E.
        - apply JobExecStep_eqb_eq in E.
          destruct (manage_one_job_outcome job w E)
            as (job' & w1 & Hone & Hid & _ & [[Hst _]|[Hst _]]);
            exists job', w1; repeat split; auto; rewrite Hst; discriminate.
        - assert (Hne : status_step job <> AWAITING_PARTITIONING).
          { intros Heq. apply JobExecStep_eqb_eq in Heq. congruence. }
          exists job, w. repeat split; auto.
          now apply manage_one_job_not_awaiting. }
      destruct Hjob as (job' & w1 & Hone & Hid & Hst).
      destruct (IH w1) as (rest' & w2 & Hrest & Hids & Hall).
      exists (job' :: rest'), w2. cbn [manage_jobs].
      erewrite bind_Ok by exact Hone. erewrite bind_Ok by exact Hrest.
      repeat split.
      + cbn [map]. now rewrite Hid, Hids.
      + now constructor. }
  destruct Hmain as (jobs' & w' & Hrun & Hids & Hall).
  exists jobs', w'. repeat split; auto.
  intros w''. now apply manage_jobs_nothing_to_do.
Qed.


End ServiceFacts.


Lemma partitioning_success_advances_job_witness :
  exists jobs' w' job',
    ServiceManager.polling_pass unit Example.data_service Example.uuid4
      Example.docker_ok (Example.active_jobs [Example.running_job; Example.waiting_job])
      Example.failing_save_job "partitioner:latest" tt = (Ok jobs', w')
    /\ jobs' !! 1%nat = Some job'
    /\ job_id job' = "job-1"
    /\ status_step job' = AWAITING_ALLOCATION
    /\ exists added,
         data_requirements job' = [Example.hydrofabric_requirement] ++ [added]
         /\ category added = CONFIG
         /\ discrete_restrictions (domain added)
            = [("data_id", mkDiscreteRestriction "data_id" [PyStr "data-id-9"])]
         /\ fulfilled_by added = PyStr "partition-config-0000-0001".
Proof.
  apply (partitioning_success_advances_job unit Example.data_service Example.uuid4
           Example.docker_ok (Example.active_jobs [Example.running_job; Example.waiting_job])
           Example.failing_save_job "partitioner:latest"
           tt tt [Example.running_job] Example.waiting_job []
           Example.hydrofabric_requirement (PyStr "hf-data-1") (PyStr "hf-uid-1")
           (DatasetManagementResponse.factory_create ManagementAction.SEARCH true "Found" ""
              None false (PyStr "hydrofabric-1") PyNone)
           (PyStr "hydrofabric-1") tt "0000-0001" tt
           (DatasetManagementResponse.factory_create ManagementAction.CREATE true "Created" ""
              None false (PyStr "partition-config-0000-0001") (PyStr "data-id-9"))
           (PyStr "data-id-9") tt "partitioned" tt).
  - reflexivity.
  - reflexivity.
  - intros r var restriction v [<-|[]] _ Hitem Hv.
    simpl in Hitem. destruct Hitem as [Hitem|[Hitem|[]]];
      injection Hitem as <- <-; destruct Hv as [<-|[]]; discriminate.
  - left. reflexivity.
  - reflexivity.
  - eexists. split; [left; reflexivity | reflexivity].
  - eexists. split; [right; left; reflexivity | reflexivity].
  - reflexivity.
  - reflexivity.
  - reflexivity.
  - discriminate.
  - reflexivity.
  - reflexivity.
  - reflexivity.
  - reflexivity.
  - discriminate.
  - reflexivity.
Defined.

Lemma partitioning_container_error_fails_job_witness :
  ServiceManager._execute_partitioner_container unit Example.docker_nonzero_exit
    "partitioner:latest" 4 (PyStr "hydrofabric-1") (PyStr "partition-config-0000-0001")
    PyNone PyNone "" "" tt = (Ok (false, None), tt)
  /\ exists jobs' w' job',
    ServiceManager.polling_pass unit Example.data_service Example.uuid4
      Example.docker_nonzero_exit
      (Example.active_jobs [Example.running_job; Example.waiting_job])
      Example.failing_save_job "partitioner:latest" tt = (Ok jobs', w')
    /\ jobs' !! 1%nat = Some job'
    /\ status_step job' = PARTITIONING_FAILED
    /\ data_requirements job' = [Example.hydrofabric_requirement].
Proof.
  apply (partitioning_container_error_fails_job unit Example.data_service Example.uuid4
           Example.docker_nonzero_exit
           (Example.active_jobs [Example.running_job; Example.waiting_job])
           Example.failing_save_job "partitioner:latest"
           tt tt [Example.running_job] Example.waiting_job []
           (PyStr "hf-data-1") (PyStr "hf-uid-1") (PyStr "hydrofabric-1") tt
           (PyStr "partition-config-0000-0001") (PyStr "data-id-9") tt tt);
    first [reflexivity | discriminate].
Defined.

Lemma multi_valued_uid_fails_job_witness :
  snd (ServiceManager._find_required_hydrofabric_details Example.ambiguous_job) = PyNone
  /\ exists jobs' w' job',
    ServiceManager.polling_pass unit Example.data_service Example.uuid4
      Example.docker_ok
      (Example.active_jobs [Example.running_job; Example.ambiguous_job])
      Example.failing_save_job "partitioner:latest" tt = (Ok jobs', w')
    /\ jobs' !! 1%nat = Some job'
    /\ status_step job' = PARTITIONING_FAILED
    /\ data_requirements job' = [Example.ambiguous_requirement].
Proof.
  apply (multi_valued_uid_fails_job unit Example.data_service Example.uuid4
           Example.docker_ok
           (Example.active_jobs [Example.running_job; Example.ambiguous_job])
           Example.failing_save_job "partitioner:latest"
           tt tt [Example.running_job] Example.ambiguous_job []).
  - reflexivity.
  - reflexivity.
  - intros r restriction [<-|[]] _ Hitem.
    simpl in Hitem. destruct Hitem as [Hitem|[Hitem|[]]].
    + discriminate Hitem.
    + injection Hitem as <-. simpl. lia.
Defined.

(* ================================================================== *)
(** * DatasetManagementMessage: serialising and parsing back           *)
(* ================================================================== *)

Section DatasetManagementMessageRoundTrip.
Import ManagementAction DatasetManagementMessage.

Variable DataDomain_to_dict : DataDomain -> pyvalue.
Variable parse_domain : pyvalue -> result (option DataDomain).

Lemma is_None_true (v : pyvalue) : is_None v = true -> v = PyNone.
Proof. destruct v; simpl; congruence. Qed.

(** X1: what [to_dict] writes under each key.  The keys [action],
    [category], [read_only] and [pending_data] are always there
    ([category] even when it is [None]); [dataset_name], [data] and
    [data_location] are there exactly when the attribute is not [None], and
    [data_domain] exactly when a domain is set. *)
Theorem to_dict_lookup (self : t) :
  let serial := to_dict DataDomain_to_dict self in
  let optional (value : pyvalue) := if is_None value then None else Some value in
  serial !! "action" = Some (management_action self)
  /\ serial !! "category" = Some (data_category self)
  /\ serial !! "read_only" = Some (is_read_only_dataset self)
  /\ serial !! "pending_data" = Some (is_pending_data self)
  /\ serial !! "dataset_name" = optional (dataset_name self)
  /\ serial !! "data" = optional (data self)
  /\ serial !! "data_location" = optional (data_location self)
  /\ serial !! "data_domain" = DataDomain_to_dict <$> data_domain self.
Proof.
  cbv zeta. unfold to_dict, set_unless_None.
  destruct (is_None (dataset_name self)), (is_None (data_category self)),
    (is_None (data self)), (is_None (data_location self)), (data_domain self);
    cbv zeta; repeat split; simplify_map_eq; reflexivity.
Qed.

Lemma to_dict_get_or_None (self : t) (key : string) (value : pyvalue) :
  to_dict DataDomain_to_dict self !! key = (if is_None value then None else Some value) ->
  get_or_None (to_dict DataDomain_to_dict self) key = value.
Proof.
  intros H. unfold get_or_None. rewrite H.
  destruct (is_None value) eqn:E; [|reflexivity].
  symmetry. now apply is_None_true.
Qed.

Lemma init_inv (action dataset_name ro category data loc pend : pyvalue) (m : t) :
  init action dataset_name ro category data loc pend = Ok m ->
  m = mk action dataset_name ro category None data loc pend.
Proof.
  unfold init.
  destruct (None_and dataset_name _) as [[|]|]; simpl; try discriminate.
  destruct (None_and category _) as [[|]|]; simpl; try discriminate.
  congruence.
Qed.

(** X2: a message the constructor built, with or without a domain set
    afterwards, is parsed back from its [to_dict] to the same message,
    provided the domain's own serialisation parses back to the domain. *)
Theorem to_dict_factory_roundtrip
    (action dataset_name ro category data loc pend : pyvalue) (m : t)
    (domain : option DataDomain) :
  init action dataset_name ro category data loc pend = Ok m ->
  (forall d, domain = Some d -> parse_domain (DataDomain_to_dict d) = Ok (Some d)) ->
  factory_init_from_deserialized_json parse_domain
    (to_dict DataDomain_to_dict (set_data_domain m domain))
  = Ok (Some (set_data_domain m domain)).
Proof.
  intros Hinit Hdom. pose proof (init_inv _ _ _ _ _ _ _ _ Hinit) as ->.
  set (self := set_data_domain _ _).
  destruct (to_dict_lookup self) as (Ha & Hc & Hr & Hp & Hn & Hd & Hl & Hdd).
  cbv zeta in *.
  unfold factory_init_from_deserialized_json, factory_try_body, getitem. cbv zeta.
  rewrite Ha, Hr, Hp, Hdd.
  rewrite (to_dict_get_or_None self "dataset_name" _ Hn).
  rewrite (to_dict_get_or_None self "data" _ Hd).
  rewrite (to_dict_get_or_None self "data_location" _ Hl).
  unfold get_or_None at 1. rewrite Hc.
  subst self. simpl. rewrite Hinit. simpl.
  destruct domain as [d|]; simpl; [|reflexivity].
  rewrite (Hdom d eq_refl). reflexivity.
Qed.

End DatasetManagementMessageRoundTrip.

Lemma to_dict_factory_roundtrip_witness :
  let to_dict_domain := fun d : DataDomain => PyStr "domain" in
  let parse_domain := fun v : pyvalue =>
    Ok (Some (DataDomain_init NGEN_GEOJSON_HYDROFABRIC
                [mkDiscreteRestriction "uid" [PyStr "hf-uid-1"]])) in
  let m := DatasetManagementMessage.set_data_domain
             (DatasetManagementMessage.mk (PyAction ManagementAction.SEARCH) PyNone
                (PyBool false) (PyCategory HYDROFABRIC) None PyNone PyNone (PyBool false))
             (Some (DataDomain_init NGEN_GEOJSON_HYDROFABRIC
                      [mkDiscreteRestriction "uid" [PyStr "hf-uid-1"]])) in
  DatasetManagementMessage.factory_init_from_deserialized_json parse_domain
    (DatasetManagementMessage.to_dict to_dict_domain m) = Ok (Some m).
Proof.
  cbv zeta.
  apply (to_dict_factory_roundtrip _ _ (PyAction ManagementAction.SEARCH) PyNone
           (PyBool false) (PyCategory HYDROFABRIC) PyNone PyNone (PyBool false)).
  - reflexivity.
  - intros d Hd. injection Hd as <-. reflexivity.
Defined.

Section DatasetManagementMessageRawAction.
Import ManagementAction DatasetManagementMessage.

Variable parse_domain : pyvalue -> result (option DataDomain).

(** X3: the factory hands the value under [action] to the constructor as
    it is.  When that value is not a [ManagementAction] member (a string,
    as JSON carries it), a dict without a dataset name or without a
    category is not parsed, whatever the action says; a dict with both
    (and [read_only], [pending_data], no [data_domain]) is parsed to a
    message whose action is still the raw value. *)
Theorem factory_action_not_a_member
    (json_obj : gmap string pyvalue) (action : pyvalue) :
  json_obj !! "action" = Some action ->
  (forall a, action <> PyAction a) ->
  (get_or_None json_obj "dataset_name" = PyNone
   \/ get_or_None json_obj "category" = PyNone ->
   factory_init_from_deserialized_json parse_domain json_obj = Ok None)
  /\ (forall read_only pending_data,
      get_or_None json_obj "dataset_name" <> PyNone ->
      get_or_None json_obj "category" <> PyNone ->
      json_obj !! "read_only" = Some read_only ->
      json_obj !! "pending_data" = Some pending_data ->
      json_obj !! "data_domain" = None ->
      factory_init_from_deserialized_json parse_domain json_obj
      = Ok (Some (mk action (get_or_None json_obj "dataset_name") read_only
                     (get_or_None json_obj "category") None
                     (get_or_None json_obj "data")
                     (get_or_None json_obj "data_location") pending_data))).
Proof.
  intros Ha Hnot.
  assert (Hname : getattr_requires_dataset_name action
                  = Raise (AttributeError "requires_dataset_name")).
  { destruct action; try reflexivity. now destruct (Hnot a). }
  assert (Hcat : getattr_requires_data_category action
                 = Raise (AttributeError "requires_data_category")).
  { destruct action; try reflexivity. now destruct (Hnot a). }
  unfold factory_init_from_deserialized_json, factory_try_body, getitem. cbv zeta.
  rewrite Ha. split.
  - intros Hmissing.
    destruct (json_obj !! "read_only"); simpl; [|reflexivity].
    destruct (json_obj !! "pending_data"); simpl; [|reflexivity].
    unfold init, None_and.
    destruct Hmissing as [-> | ->]; simpl.
    + rewrite Hname. reflexivity.
    + destruct (is_None (get_or_None json_obj "dataset_name")); simpl.
      * rewrite Hname. reflexivity.
      * rewrite Hcat. reflexivity.
  - intros read_only pending_data Hn Hc Hr Hp Hd.
    rewrite Hr, Hp, Hd. simpl.
    unfold init, None_and.
    rewrite (proj2 (is_None_false_iff _) Hn), (proj2 (is_None_false_iff _) Hc).
    reflexivity.
Qed.

End DatasetManagementMessageRawAction.

Lemma factory_action_not_a_member_witness :
  DatasetManagementMessage.factory_init_from_deserialized_json (fun _ => Ok None)
    {[ "action" := PyStr "SEARCH"; "category" := PyStr "HYDROFABRIC";
       "read_only" := PyBool false; "pending_data" := PyBool false ]} = Ok None
  /\ DatasetManagementMessage.factory_init_from_deserialized_json (fun _ => Ok None)
    {[ "action" := PyStr "SEARCH"; "category" := PyStr "HYDROFABRIC";
       "dataset_name" := PyStr "hf"; "read_only" := PyBool false;
       "pending_data" := PyBool false ]}
     = Ok (Some (DatasetManagementMessage.mk (PyStr "SEARCH") (PyStr "hf") (PyBool false)
                   (PyStr "HYDROFABRIC") None PyNone PyNone (PyBool false))).
Proof.
  split.
  - destruct (factory_action_not_a_member (fun _ => Ok None)
                ({[ "action" := PyStr "SEARCH"; "category" := PyStr "HYDROFABRIC";
                    "read_only" := PyBool false; "pending_data" := PyBool false ]}
                 : gmap string pyvalue)
                (PyStr "SEARCH")) as [Hnone _]; [reflexivity | discriminate |].
    apply Hnone. left. reflexivity.
  - destruct (factory_action_not_a_member (fun _ => Ok None)
                ({[ "action" := PyStr "SEARCH"; "category" := PyStr "HYDROFABRIC";
                    "dataset_name" := PyStr "hf"; "read_only" := PyBool false;
                    "pending_data" := PyBool false ]} : gmap string pyvalue)
                (PyStr "SEARCH")) as [_ Hsome]; [reflexivity | discriminate |].
    apply (Hsome (PyBool false) (PyBool false)); first [reflexivity | discriminate].
Defined.

(* ================================================================== *)
(** * DatasetManagementResponse: reading back what was built           *)
(* ================================================================== *)

Section DatasetManagementResponseAccessors.
Import DatasetManagementResponse.

(** X4: a response built by [factory_create] gives back the action, and
    gives back the [data_id] and the [dataset_name] it was built with; when
    one of the two is left out, the accessor falls back on the entry of the
    [data] map handed in, and on [None] when there is none. *)
Theorem factory_create_accessors
    (a : ManagementAction.t) (success : bool) (reason message : string)
    (data : option (gmap string pyvalue)) (awaiting : bool)
    (name id : pyvalue) :
  let r := factory_create a success reason message data awaiting name id in
  let supplied := default ∅ data in
  Response.success r = success
  /\ Response.reason r = reason
  /\ Response.message r = message
  /\ action r = Ok (PyAction a)
  /\ data_id r = Ok (if is_None id then get_or_None supplied "data_id" else id)
  /\ dataset_name r
     = Ok (if is_None name then get_or_None supplied "dataset_name" else name).
Proof.
  cbv zeta. unfold factory_create, init. cbv zeta.
  set (d0 := match data with Some d => d | None => ∅ end).
  assert (Hd0 : default ∅ data = d0) by (destruct data; reflexivity).
  rewrite Hd0.
  match goal with
  | |- context [match ?m !! _DATA_KEY_IS_AWAITING with _ => _ end] =>
      assert (Haw : m !! _DATA_KEY_IS_AWAITING = Some (PyBool awaiting))
  end.
  { pose proof (factory_create_lookup a data awaiting name id) as H.
    cbv zeta in H. exact H. }
  rewrite Haw.
  unfold action, data_id, dataset_name, Response.data_getitem,
    Response.data_get_or_None, getitem, get_or_None,
    _DATA_KEY_ACTION, _DATA_KEY_DATA_ID, _DATA_KEY_DATASET_NAME, _DATA_KEY_IS_AWAITING.
  simpl.
  destruct (is_None name), (is_None id); repeat split; simplify_map_eq; reflexivity.
Qed.

(** X5: a response built by [__init__] keeps every entry of the data map
    it is given and adds nothing but [is_awaiting].  Its [data_id] and
    [dataset_name] are the map's entries, [None] when the map has none or
    there is no map; its [action] raises [KeyError] unless the map brings
    one. *)
Theorem init_keeps_data (success : bool) (reason message : string)
    (data : option (gmap string pyvalue)) :
  let r := init success reason message data in
  let supplied := default ∅ data in
  (exists d, Response.data r = Some d
             /\ forall key, key <> "is_awaiting" -> d !! key = supplied !! key)
  /\ data_id r = Ok (get_or_None supplied "data_id")
  /\ dataset_name r = Ok (get_or_None supplied "dataset_name")
  /\ action r = match supplied !! "action" with
                | Some a => Ok a
                | None => Raise (KeyError "action")
                end.
Proof.
  cbv zeta. unfold init, action, data_id, dataset_name, Response.data_getitem,
    Response.data_get_or_None, getitem, get_or_None,
    _DATA_KEY_ACTION, _DATA_KEY_DATA_ID, _DATA_KEY_DATASET_NAME, _DATA_KEY_IS_AWAITING.
  destruct data as [d|]; simpl.
  - destruct (d !! "is_awaiting") eqn:E; simpl.
    + repeat split. eexists. split; [reflexivity|]. auto.
    + repeat split; simplify_map_eq; try reflexivity.
      eexists. split; [reflexivity|]. intros key Hk. now rewrite lookup_insert_ne.
  - repeat split; simplify_map_eq; try reflexivity.
    eexists. split; [reflexivity|]. intros key Hk.
    rewrite lookup_singleton_ne by congruence. now rewrite lookup_empty.
Qed.

End DatasetManagementResponseAccessors.

(* ================================================================== *)
(** * SchedulerRequestMessage: the resource ask is always set          *)
(* ================================================================== *)

Section SchedulerRequestInvariant.
Import PyString SchedulerRequestMessage.
Context {ModelExecRequest : Type}.
Implicit Types (model_request : ModelExecRequest) (user_id : string).

(** X6: whatever the arguments, a constructed message has a [cpus] and a
    [memory] that are not [None] and an allocation paradigm that is not
    blank; each marker tells whether the argument was [None]. *)
Theorem init_resources_always_set model_request user_id (cpus mem ap : pyvalue) :
  let m := init model_request user_id cpus mem ap in
  SchedulerRequestMessage.cpus m <> PyNone
  /\ memory m <> PyNone
  /\ blank (allocation_paradigm m) = false
  /\ cpus_unset m = is_None cpus
  /\ memory_unset m = is_None mem.
Proof.
  cbv zeta. unfold init.
  assert (Hap : blank (match ap with
                       | PyStr s => if truthy (strip s) then s
                                    else default_allocation_paradigm_str
                       | _ => default_allocation_paradigm_str
                       end) = false).
  { destruct ap; try reflexivity.
    rewrite truthy_strip_blank. destruct (blank s) eqn:E; simpl; [reflexivity | exact E]. }
  destruct (is_None cpus) eqn:Hc, (is_None mem) eqn:Hm; simpl;
    repeat split; try discriminate; try exact Hap;
    try (apply is_None_false_iff; assumption).
Qed.

(** X7: the defaults are substituted once.  A message constructed again
    from the [cpus], [memory] and [allocation_paradigm] of a constructed
    message carries the same three values, with both markers cleared. *)
Theorem init_again_keeps_values model_request user_id (cpus mem ap : pyvalue) :
  let m := init model_request user_id cpus mem ap in
  let m' := init model_request user_id (SchedulerRequestMessage.cpus m) (memory m)
                 (PyStr (allocation_paradigm m)) in
  SchedulerRequestMessage.cpus m' = SchedulerRequestMessage.cpus m
  /\ memory m' = memory m
  /\ allocation_paradigm m' = allocation_paradigm m
  /\ cpus_unset m' = false
  /\ memory_unset m' = false.
Proof.
  cbv zeta.
  destruct (init_resources_always_set model_request user_id cpus mem ap)
    as (Hc & Hm & Hb & _ & _). cbv zeta in *.
  set (m := init model_request user_id cpus mem ap) in *.
  unfold init at 1 2 3 4 5.
  rewrite (proj2 (is_None_false_iff _) Hc), (proj2 (is_None_false_iff _) Hm).
  simpl. rewrite truthy_strip_blank, Hb. simpl. repeat split.
Qed.

End SchedulerRequestInvariant.

(* ================================================================== *)
(** * WebSocketInterface: task indexes                                  *)
(* ================================================================== *)

Section TaskIndexes.
Import WebSocketInterface.
Context {Coro Task : Type}.
Variable create_task : Coro -> Task.
Implicit Types (self : t Coro Task) (coros : list Coro).

(** Before anything is scheduled, adding tasks only records them. *)
Lemma add_async_tasks_not_running coros : forall self,
  _scheduled_tasks self = [] ->
  add_async_tasks create_task self coros
  = (indexes_from (length (_requested_tasks self)) (length coros),
     mk (_requested_tasks self ++ coros) []).
Proof.
  induction coros as [|coro rest IH]; intros self Hs.
  - simpl. rewrite app_nil_r. destruct self; simpl in *. now subst.
  - cbn [add_async_tasks]. unfold add_async_task. rewrite Hs. simpl length.
    cbn [Z.ltb Z.of_nat Z.compare].
    rewrite IH by reflexivity. simpl _requested_tasks.
    rewrite length_app, Nat.add_1_r, <- app_assoc. reflexivity.
Qed.

(** Once tasks are scheduled, one per requested coroutine, adding tasks
    schedules them at once and keeps the two collections aligned. *)
Lemma add_async_tasks_running coros : forall self,
  _scheduled_tasks self <> [] ->
  _scheduled_tasks self = map create_task (_requested_tasks self) ->
  add_async_tasks create_task self coros
  = (indexes_from (length (_requested_tasks self)) (length coros),
     mk (_requested_tasks self ++ coros)
        (map create_task (_requested_tasks self ++ coros))).
Proof.
  induction coros as [|coro rest IH]; intros self Hne Hs.
  - simpl. rewrite app_nil_r, <- Hs. now destruct self.
  - cbn [add_async_tasks]. unfold add_async_task.
    assert (Hlt : (0 <? Z.of_nat (length (_scheduled_tasks self))) = true).
    { apply Z.ltb_lt. destruct (_scheduled_tasks self); [congruence | simpl; lia]. }
    rewrite Hlt, IH; simpl _requested_tasks; simpl _scheduled_tasks.
    + rewrite length_app, Nat.add_1_r, <- app_assoc. reflexivity.
    + destruct (_scheduled_tasks self); [congruence | discriminate].
    + rewrite Hs, map_app. reflexivity.
Qed.

Lemma fold_schedule coros : forall acc : list Task,
  fold_left (fun acc requested_coro => acc ++ [create_task requested_coro]) coros acc
  = acc ++ map create_task coros.
Proof.
  induction coros as [|c cs IH]; intros acc; simpl.
  - now rewrite app_nil_r.
  - rewrite IH, <- app_assoc. reflexivity.
Qed.

Lemma run_schedule_from_nothing self (server : Coro) :
  _scheduled_tasks self = [] ->
  run_schedule create_task self server
  = mk (_requested_tasks self ++ [server])
       (map create_task (_requested_tasks self ++ [server])).
Proof.
  intros Hs. unfold run_schedule. rewrite fold_schedule, Hs, map_app. reflexivity.
Qed.

Lemma get_task_object_scheduled self (k : nat) (task : Task) :
  _scheduled_tasks self !! k = Some task ->
  get_task_object self (Z.of_nat k) = Ok (Some task).
Proof.
  intros Hk.
  assert (Hlt : (k < length (_scheduled_tasks self))%nat)
    by (eapply lookup_lt_Some; exact Hk).
  unfold get_task_object, list_getitem. cbv zeta.
  destruct (Z.gtb_spec (Z.of_nat (length (_scheduled_tasks self))) (Z.of_nat k)); [|lia].
  destruct (Z.ltb_spec (Z.of_nat k) 0); [lia|].
  destruct (Z.leb_spec 0 (Z.of_nat k)); [|lia].
  destruct (Z.ltb_spec (Z.of_nat k) (Z.of_nat (length (_scheduled_tasks self)))); [|lia].
  simpl. rewrite Nat2Z.id, Hk. reflexivity.
Qed.

(** X8: on a service that is not running yet, [add_async_task] hands out
    the indexes 0, 1, 2, ... in the order of the calls and keeps the
    coroutines in that order, and [get_task_object] answers [None] at every
    index that is not negative: nothing is scheduled before [run]. *)
Theorem tasks_added_before_run coros (index : Z) :
  let '(indexes, self) := add_async_tasks create_task init coros in
  indexes = indexes_from 0 (length coros)
  /\ _requested_tasks self = coros
  /\ (0 <= index -> get_task_object self index = Ok None).
Proof.
  rewrite add_async_tasks_not_running by reflexivity. simpl.
  repeat split. intros Hi. unfold get_task_object. simpl.
  destruct (Z.gtb_spec (Z.of_nat 0) index); [simpl in *; lia | reflexivity].
Qed.

(** X9: the index [add_async_task] returns for a coroutine is the index
    of its task.  With coroutines added before [run] and others added
    while the service runs, [get_task_object] at the index returned for a
    coroutine gives the task created for that coroutine; the server takes
    the one index in between. *)
Theorem task_index_is_kept (before : list Coro) (server : Coro) (after : list Coro) :
  let '(indexes_before, self) := add_async_tasks create_task init before in
  let self := run_schedule create_task self server in
  let '(indexes_after, self) := add_async_tasks create_task self after in
  indexes_before = indexes_from 0 (length before)
  /\ indexes_after = indexes_from (S (length before)) (length after)
  /\ length (_scheduled_tasks self) = (length before + 1 + length after)%nat
  /\ (forall k coro, before !! k = Some coro ->
        get_task_object self (Z.of_nat k) = Ok (Some (create_task coro)))
  /\ (forall k coro, after !! k = Some coro ->
        get_task_object self (Z.of_nat (S (length before) + k))
        = Ok (Some (create_task coro))).
Proof.
  rewrite add_async_tasks_not_running by reflexivity.
  cbv beta iota zeta. cbn [init _requested_tasks app length].
  rewrite run_schedule_from_nothing by reflexivity. cbn [_requested_tasks].
  rewrite add_async_tasks_running; cbn [_requested_tasks _scheduled_tasks].
  - rewrite length_app. cbn [length]. rewrite Nat.add_1_r.
    split; [reflexivity|]. split; [reflexivity|].
    split; [|split].
    + rewrite length_map, !length_app. cbn [length]. lia.
    + intros k coro Hk. apply get_task_object_scheduled. cbn [_scheduled_tasks].
      rewrite list_lookup_fmap, <- app_assoc, lookup_app_l
        by (eapply lookup_lt_Some; exact Hk).
      now rewrite Hk.
    + intros k coro Hk. apply get_task_object_scheduled. cbn [_scheduled_tasks].
      rewrite list_lookup_fmap, lookup_app_r by (rewrite length_app; cbn [length]; lia).
      rewrite length_app. cbn [length].
      replace (S (length before) + k - (length before + 1))%nat with k by lia.
      now rewrite Hk.
  - destruct (map create_task (before ++ [server])) eqn:E; [|discriminate].
    apply (f_equal length) in E. rewrite length_map, length_app in E.
    cbn [length] in E. lia.
  - reflexivity.
Qed.

End TaskIndexes.

(* ================================================================== *)
(** * WebSocketInterface: telling request types apart                  *)
(* ================================================================== *)

Section RequestTypeFacts.
Import WebSocketInterface.
Context {Data Error : Type}.
Variable members : list MessageEventType.
Variable validate_session_init : Data -> bool * option Error.
Variable validate_nwm_request : Data -> bool * option Error.

Lemma MessageEventType_eqb_eq (a b : MessageEventType) :
  MessageEventType_eqb a b = true <-> a = b.
Proof.
  destruct a, b; simpl; split; try congruence; try reflexivity.
  - intros H. apply String.eqb_eq in H. now subst.
  - intros H. injection H as ->. apply String.eqb_refl.
Qed.

Lemma MessageEventType_eqb_refl (a : MessageEventType) : MessageEventType_eqb a a = true.
Proof. now apply MessageEventType_eqb_eq. Qed.

Lemma MessageEventType_eqb_neq (a b : MessageEventType) :
  a <> b -> MessageEventType_eqb a b = false.
Proof.
  intros H. destruct (MessageEventType_eqb a b) eqn:E; [|reflexivity].
  apply MessageEventType_eqb_eq in E. contradiction.
Qed.

Lemma errors_get_set_same (errors : list (MessageEventType * option Error)) key error :
  errors_get (errors_set errors key error) key = Some error.
Proof.
  induction errors as [|[k x] rest IH]; simpl.
  - now rewrite MessageEventType_eqb_refl.
  - destruct (MessageEventType_eqb k key) eqn:E; simpl; rewrite E; [reflexivity | exact IH].
Qed.

Lemma errors_get_set_other (errors : list (MessageEventType * option Error)) key error other :
  key <> other ->
  errors_get (errors_set errors key error) other = errors_get errors other.
Proof.
  intros Hne. induction errors as [|[k x] rest IH]; simpl.
  - now rewrite MessageEventType_eqb_neq.
  - destruct (MessageEventType_eqb k key) eqn:E; simpl.
    + apply MessageEventType_eqb_eq in E. subst k.
      now rewrite MessageEventType_eqb_neq.
    + now rewrite IH.
Qed.

Lemma errors_get_initial (ts : list MessageEventType) :
  errors_get (map (fun t => (t, @None Error))
                  (filter (fun t => MessageEventType_eqb t INVALID = false) ts))
             INVALID = None.
Proof.
  induction ts as [|t ts IH]; [reflexivity|].
  rewrite filter_cons. destruct (decide (MessageEventType_eqb t INVALID = false)) as [E|E].
  - simpl. rewrite E. exact IH.
  - exact IH.
Qed.

(** X10: how [parse_request_type] decides.  The answer is [SESSION_INIT]
    exactly when authentication is checked for and the session validator
    accepts the data, whatever the request validator would say; otherwise
    it is [MODEL_EXEC_REQUEST] when the request validator accepts and
    [INVALID] when it does not.  The errors never have an entry for
    [INVALID]; they hold the error of each validator that was run, and the
    request validator is not run once the session validator has accepted. *)
Theorem parse_request_type_decision (data : Data) (check_for_auth : bool) :
  let result :=
    parse_request_type members validate_session_init validate_nwm_request
      data check_for_auth in
  let is_auth := check_for_auth && fst (validate_session_init data) in
  let is_job := fst (validate_nwm_request data) in
  fst result = (if is_auth then SESSION_INIT
                else if is_job then MODEL_EXEC_REQUEST else INVALID)
  /\ errors_get (snd result) INVALID = None
  /\ (check_for_auth = true ->
      errors_get (snd result) SESSION_INIT = Some (snd (validate_session_init data)))
  /\ errors_get (snd result) MODEL_EXEC_REQUEST
     = (if is_auth
        then errors_get (map (fun t => (t, None))
                           (filter (fun t => MessageEventType_eqb t INVALID = false)
                                   members)) MODEL_EXEC_REQUEST
        else Some (snd (validate_nwm_request data))).
Proof.
  cbv zeta. unfold parse_request_type. cbv zeta.
  set (initial := map _ _).
  assert (Hinit : errors_get initial INVALID = None) by apply errors_get_initial.
  destruct (validate_session_init data) as [is_auth_req auth_error].
  destruct (validate_nwm_request data) as [is_job_req job_error].
  destruct check_for_auth, is_auth_req, is_job_req; simpl;
    repeat split; try discriminate;
    repeat first
      [ rewrite errors_get_set_same
      | rewrite errors_get_set_other by discriminate ];
    auto.
Qed.

End RequestTypeFacts.

Lemma parse_request_type_decision_witness :
  let result :=
    WebSocketInterface.parse_request_type
      [WebSocketInterface.SESSION_INIT; WebSocketInterface.MODEL_EXEC_REQUEST;
       WebSocketInterface.INVALID]
      (fun data : string => (true, None))
      (fun data : string => (true, Some "no model"))
      "{}" true in
  fst result = WebSocketInterface.SESSION_INIT
  /\ WebSocketInterface.errors_get (snd result) WebSocketInterface.SESSION_INIT
     = Some None.
Proof.
  cbv zeta.
  destruct (parse_request_type_decision
              [WebSocketInterface.SESSION_INIT; WebSocketInterface.MODEL_EXEC_REQUEST;
               WebSocketInterface.INVALID]
              (fun data : string => (true, @None string))
              (fun data : string => (true, Some "no model"))
              "{}" true) as (Hkind & _ & Herr & _).
  split; [exact Hkind | apply Herr; reflexivity].
Defined.

(* ================================================================== *)
(** * WebSocketSessionsInterface: sessions and their websockets        *)
(* ================================================================== *)

Section SessionFacts.
Import WebSocketSessionsInterface.
Context {Session WebSocket SessionId : Type} `{Countable Session}.
Variable session_id : Session -> option SessionId.

Abbreviation unregister := (unregister_websocket_session session_id).

Lemma unregister_cases (sessions : gmap Session WebSocket) (session : Session) :
  unregister sessions (Some session)
  = match session_id session with
    | Some _ => delete session sessions
    | None => sessions
    end.
Proof.
  unfold unregister_websocket_session.
  destruct (session_id session); [|reflexivity].
  destruct (sessions !! session) eqn:E; [reflexivity|].
  symmetry. now apply delete_id.
Qed.

(** X11: unregistering changes nothing when it is given [None], a session
    whose [session_id] is [None] (even a registered one), or a session that
    is not registered; otherwise it removes that session's websocket and no
    other.  Doing it twice is the same as doing it once, and it undoes a
    registration of a session that was not registered before. *)
Theorem unregister_websocket_session_spec
    (sessions : gmap Session WebSocket) (websocket : WebSocket) (session : Session) :
  unregister sessions None = sessions
  /\ (session_id session = None -> unregister sessions (Some session) = sessions)
  /\ (sessions !! session = None -> unregister sessions (Some session) = sessions)
  /\ (session_id session <> None ->
      unregister sessions (Some session) !! session = None
      /\ forall other, other <> session ->
           unregister sessions (Some session) !! other = sessions !! other)
  /\ unregister (unregister sessions (Some session)) (Some session)
     = unregister sessions (Some session)
  /\ (session_id session <> None -> sessions !! session = None ->
      unregister (register_websocket_session sessions websocket session) (Some session)
      = sessions).
Proof.
  rewrite !unregister_cases.
  split; [reflexivity|].
  split; [intros ->; reflexivity|].
  split; [intros Hn; destruct (session_id session); [now apply delete_id | reflexivity]|].
  split.
  { intros Hid. destruct (session_id session); [|congruence]. split.
    - apply lookup_delete_eq.
    - intros other Hne. now apply lookup_delete_ne. }
  split.
  { destruct (session_id session); [|reflexivity]. apply delete_delete_eq. }
  intros Hid Hn. destruct (session_id session); [|congruence].
  unfold register_websocket_session. now rewrite delete_insert_eq, delete_id.
Qed.

End SessionFacts.

Lemma unregister_websocket_session_spec_witness :
  let session_id := fun session : string =>
    if String.eqb session "anonymous" then None else Some session in
  let sessions : gmap string string := {[ "anonymous" := "ws-1"; "alice" := "ws-2" ]} in
  WebSocketSessionsInterface.unregister_websocket_session session_id sessions
    (Some "anonymous") = sessions
  /\ WebSocketSessionsInterface.unregister_websocket_session session_id sessions
       (Some "alice") !! "alice" = None.
Proof.
  cbv zeta.
  split.
  - apply (proj1 (proj2 (unregister_websocket_session_spec
                           (fun session : string =>
                              if String.eqb session "anonymous" then None else Some session)
                           ({[ "anonymous" := "ws-1"; "alice" := "ws-2" ]} : gmap string string)
                           "ws" "anonymous"))).
    reflexivity.
  - apply (proj1 (proj2 (proj2 (proj2 (unregister_websocket_session_spec
                           (fun session : string =>
                              if String.eqb session "anonymous" then None else Some session)
                           ({[ "anonymous" := "ws-1"; "alice" := "ws-2" ]} : gmap string string)
                           "ws" "alice"))))).
    discriminate.
Defined.

(* ================================================================== *)
(** * ServiceManager: where the hydrofabric details come from          *)
(* ================================================================== *)

Section FindDetailsSound.
Import ServiceManager.

Lemma items_bind_tail (item : string * DiscreteRestriction) items var v :
  items_bind items var v -> items_bind (item :: items) var v.
Proof. intros (restriction & Hin & Hv). exists restriction. split; [right|]; assumption. Qed.

Lemma scan_restrictions_sound items : forall data_id uid,
  let found := either_way (scan_restrictions items data_id uid) in
  (fst found = data_id \/ items_bind items "data_id" (fst found))
  /\ (snd found = uid \/ items_bind items "uid" (snd found)).
Proof.
  cbv zeta.
  induction items as [|[var restriction] rest IH]; intros data_id uid.
  - simpl. auto.
  - assert (Hweak : forall d u,
              (fst (either_way (scan_restrictions rest d u)) = d
               \/ items_bind rest "data_id" (fst (either_way (scan_restrictions rest d u))))
              /\ (snd (either_way (scan_restrictions rest d u)) = u
               \/ items_bind rest "uid" (snd (either_way (scan_restrictions rest d u)))) ->
              (fst (either_way (scan_restrictions rest d u)) = d
               \/ items_bind ((var, restriction) :: rest) "data_id"
                    (fst (either_way (scan_restrictions rest d u))))
              /\ (snd (either_way (scan_restrictions rest d u)) = u
               \/ items_bind ((var, restriction) :: rest) "uid"
                    (snd (either_way (scan_restrictions rest d u))))).
    { intros d u [[Hd|Hd] [Hu|Hu]]; split; auto using items_bind_tail. }
    simpl.
    destruct (values restriction) as [|value0 [|value1 more]] eqn:Hvals;
      [apply Hweak, IH| |apply Hweak, IH].
    destruct (String.eqb_spec var "data_id") as [Hd|Hd].
    + subst var.
      assert (Hhere : items_bind (("data_id", restriction) :: rest) "data_id" value0).
      { exists restriction. split; [left; reflexivity | exact Hvals]. }
      destruct (negb (is_None uid)); simpl.
      * auto.
      * destruct (Hweak value0 uid (IH value0 uid)) as [[Hx|Hx] Hy]; split; auto.
        right. now rewrite Hx.
    + destruct (String.eqb_spec var "uid") as [Hu|Hu]; [|apply Hweak, IH].
      subst var.
      assert (Hhere : items_bind (("uid", restriction) :: rest) "uid" value0).
      { exists restriction. split; [left; reflexivity | exact Hvals]. }
      destruct (negb (is_None data_id)); simpl.
      * auto.
      * destruct (Hweak data_id value0 (IH data_id value0)) as [Hx [Hy|Hy]]; split; auto.
        right. now rewrite Hy.
Qed.

Lemma scan_requirements_sound requirements : forall data_id uid,
  let found := scan_requirements requirements data_id uid in
  (fst found = data_id
   \/ exists r, In r requirements /\ binds r "data_id" (fst found))
  /\ (snd found = uid
   \/ exists r, In r requirements /\ binds r "uid" (snd found)).
Proof.
  cbv zeta.
  induction requirements as [|r rest IH]; intros data_id uid; [simpl; auto|].
  simpl.
  pose proof (scan_restrictions_sound (discrete_restrictions (domain r)) data_id uid)
    as Hscan. cbv zeta in Hscan.
  destruct (scan_restrictions (discrete_restrictions (domain r)) data_id uid)
    as [[d u]|[d u]]; simpl in Hscan.
  - destruct Hscan as [[Hd|Hd] [Hu|Hu]]; split; simpl; auto;
      right; exists r; split; auto; left; reflexivity.
  - destruct (IH d u) as [Hd' Hu']. destruct Hscan as [Hd Hu]. split.
    + destruct Hd' as [Hd'|(r' & Hin & Hb)].
      * rewrite Hd'. destruct Hd as [Hd|Hd]; [left; exact Hd|].
        right. exists r. split; [left; reflexivity | exact Hd].
      * right. exists r'. split; [right; exact Hin | exact Hb].
    + destruct Hu' as [Hu'|(r' & Hin & Hb)].
      * rewrite Hu'. destruct Hu as [Hu|Hu]; [left; exact Hu|].
        right. exists r. split; [left; reflexivity | exact Hu].
      * right. exists r'. split; [right; exact Hin | exact Hb].
Qed.

(** X18: the details found are the job's own.  A [data_id] that is not
    [None] is the single allowed value of a [data_id] restriction of one of
    the job's [HYDROFABRIC] requirements, and likewise the [uid];
    requirements of other categories are never looked at, so a job without
    a hydrofabric requirement resolves to [(None, None)]. *)
Theorem find_required_hydrofabric_details_sound (job : Job) :
  let found := _find_required_hydrofabric_details job in
  (fst found <> PyNone ->
     exists r, In r (data_requirements job) /\ category r = HYDROFABRIC
               /\ binds r "data_id" (fst found))
  /\ (snd found <> PyNone ->
     exists r, In r (data_requirements job) /\ category r = HYDROFABRIC
               /\ binds r "uid" (snd found))
  /\ ((forall r, In r (data_requirements job) -> category r <> HYDROFABRIC) ->
     found = (PyNone, PyNone)).
Proof.
  cbv zeta. unfold _find_required_hydrofabric_details.
  set (hydrofabrics := filter _ (data_requirements job)).
  assert (Hmem : forall r, In r hydrofabrics ->
             In r (data_requirements job) /\ category r = HYDROFABRIC).
  { intros r Hr. apply list_elem_of_In, list_elem_of_filter in Hr as [Hc Hr].
    split; [now apply list_elem_of_In | now apply DataCategory_eqb_eq]. }
  destruct (scan_requirements_sound hydrofabrics PyNone PyNone) as [Hd Hu].
  cbv zeta in Hd, Hu.
  assert (Hfst : fst (scan_requirements hydrofabrics PyNone PyNone) <> PyNone ->
            exists r, In r (data_requirements job) /\ category r = HYDROFABRIC
                      /\ binds r "data_id" (fst (scan_requirements hydrofabrics PyNone PyNone))).
  { intros Hne. destruct Hd as [Hd|(r & Hr & Hb)]; [contradiction|].
    exists r. destruct (Hmem r Hr). auto. }
  assert (Hsnd : snd (scan_requirements hydrofabrics PyNone PyNone) <> PyNone ->
            exists r, In r (data_requirements job) /\ category r = HYDROFABRIC
                      /\ binds r "uid" (snd (scan_requirements hydrofabrics PyNone PyNone))).
  { intros Hne. destruct Hu as [Hu|(r & Hr & Hb)]; [contradiction|].
    exists r. destruct (Hmem r Hr). auto. }
  split; [exact Hfst|]. split; [exact Hsnd|].
  intros Hnone.
  destruct (scan_requirements hydrofabrics PyNone PyNone) as [d u]; simpl in *.
  f_equal.
  - destruct (is_None d) eqn:E; [now apply is_None_true|].
    apply is_None_false_iff in E. destruct (Hfst E) as (r & Hr & Hc & _).
    now destruct (Hnone r Hr).
  - destruct (is_None u) eqn:E; [now apply is_None_true|].
    apply is_None_false_iff in E. destruct (Hsnd E) as (r & Hr & Hc & _).
    now destruct (Hnone r Hr).
Qed.

End FindDetailsSound.

Lemma find_required_hydrofabric_details_sound_witness :
  (exists r, In r (data_requirements Example.ambiguous_job)
             /\ category r = HYDROFABRIC
             /\ binds r "data_id"
                  (fst (ServiceManager._find_required_hydrofabric_details
                          Example.ambiguous_job)))
  /\ ServiceManager._find_required_hydrofabric_details Example.running_job
     = (PyNone, PyNone).
Proof.
  split.
  - apply (proj1 (find_required_hydrofabric_details_sound Example.ambiguous_job)).
    discriminate.
  - apply (proj2 (proj2 (find_required_hydrofabric_details_sound Example.running_job))).
    intros r [].
Defined.

(* ================================================================== *)
(** * ServiceManager: the request-driven path                          *)
(* ================================================================== *)

Section RequestPathFacts.
Import ServiceManager ManagementAction.

Variable World : Type.
Variable async_make_request : DatasetManagementMessage.t -> M World Response.t.
Variable uuid4 : M World string.
Variable run_container : string -> list pyvalue -> bool -> M World string.
Variable _image_name : string.
Context {PartitionResponse : Type}.
Variable PartitionResponse_init : bool -> string -> option string -> PartitionResponse.
Variable PartitionResponse_factory_create : pyvalue -> pyvalue -> string -> PartitionResponse.
Variable derives_from_RuntimeError : exn -> bool.
Variable str_exn : exn -> string.

Abbreviation find_name := (_async_find_hydrofabric_dataset_name World async_make_request).
Abbreviation create_dataset :=
  (_async_create_new_partitioning_dataset World async_make_request uuid4).
Abbreviation process_request :=
  (_async_process_request World async_make_request uuid4 run_container _image_name
     PartitionResponse_init PartitionResponse_factory_create
     derives_from_RuntimeError str_exn).
Abbreviation caught := (is_RuntimeError derives_from_RuntimeError).

Lemma request_execute_eq (request : PartitionRequest) hy_name part_name w :
  _execute_partitioner_container World run_container _image_name
    (num_partitions request) hy_name part_name PyNone PyNone "" "" w
  = match run_container _image_name
            (request_partitioner_command request hy_name part_name) true w with
    | (Ok logs, w') => (Ok (true, Some logs), w')
    | (Raise e, w') =>
        match e with
        | ContainerError => ret (false, None)
        | _ => raise (RuntimeError
                 "Could not successfully execute partitioner Docker container: {}"
                 (Some e))
        end w'
    end.
Proof.
  unfold _execute_partitioner_container, try_catch, bind, request_partitioner_command.
  simpl is_None. cbv iota.
  destruct (run_container _ _ _ w) as [[logs|e] w']; reflexivity.
Qed.

(** X19: when the hydrofabric dataset is not found (the data service
    answers the SEARCH request without success, or with a name that is not
    a string) the request is answered with the failure [Could Not Find
    Hydrofabric Dataset], and nothing else happens: no uuid is drawn, no
    dataset is created, no container is run. *)
Theorem process_request_dataset_not_found (request : PartitionRequest) w response w1 :
  async_make_request
    (search_request (hydrofabric_data_id request) (hydrofabric_uid request)) w
  = (Ok response, w1) ->
  (Response.success response = false
   \/ exists name, DatasetManagementResponse.dataset_name response = Ok name
                   /\ forall s, name <> PyStr s) ->
  process_request request w
  = (Ok (PartitionResponse_init false "Could Not Find Hydrofabric Dataset" None), w1).
Proof.
  intros Hsearch Hnot.
  unfold _async_process_request, try_catch, process_request_try.
  unfold bind at 1. rewrite find_name_eq, Hsearch.
  destruct Hnot as [Hs | (name & Hname & Hstr)].
  - rewrite Hs. reflexivity.
  - destruct (Response.success response); [|reflexivity].
    unfold lift. rewrite Hname.
    destruct name; try reflexivity. now destruct (Hstr s).
Qed.

(** X20: the request path does not look at how the container run ended.
    Once the hydrofabric dataset is found and the new dataset has a name,
    the answer is the [Partitioning Complete] response for the new dataset
    both when the container returns its output and when it exits with a
    non-zero code; nor does the path ask for the new dataset to have a
    [data_id]. *)
Theorem process_request_ignores_exit_code
    (request : PartitionRequest) w hy_name w1 part_name part_id w3 outcome w4 :
  find_name (hydrofabric_data_id request) (hydrofabric_uid request) w
  = (Ok (PyStr hy_name), w1) ->
  create_dataset w1 = (Ok (part_name, part_id), w3) ->
  part_name <> PyNone ->
  run_container _image_name
    (request_partitioner_command request (PyStr hy_name) part_name) true w3
  = (outcome, w4) ->
  (outcome = Raise ContainerError \/ exists logs, outcome = Ok logs) ->
  process_request request w
  = (Ok (PartitionResponse_factory_create part_name part_id "Partitioning Complete"), w4).
Proof.
  intros Hfind Hcreate Hname Hrun Hout.
  unfold _async_process_request, try_catch, process_request_try.
  unfold bind at 1. rewrite Hfind. cbv zeta.
  unfold bind at 1. rewrite Hcreate. cbv beta iota.
  rewrite (proj2 (is_None_false_iff _) Hname).
  unfold bind. rewrite request_execute_eq, Hrun.
  destruct Hout as [-> | [logs ->]]; reflexivity.
Qed.

(** X21: a container run that fails in any other way is answered, not
    raised: the response is a failure whose reason is the class name of the
    exception the run raised and whose message is the text of the
    [RuntimeError] it was wrapped in. *)
Theorem process_request_container_failure
    (request : PartitionRequest) w hy_name w1 part_name part_id w3 e w4 :
  find_name (hydrofabric_data_id request) (hydrofabric_uid request) w
  = (Ok (PyStr hy_name), w1) ->
  create_dataset w1 = (Ok (part_name, part_id), w3) ->
  part_name <> PyNone ->
  run_container _image_name
    (request_partitioner_command request (PyStr hy_name) part_name) true w3
  = (Raise e, w4) ->
  e <> ContainerError ->
  process_request request w
  = (Ok (PartitionResponse_init false (class_name e)
           (Some (str_exn (RuntimeError
                    "Could not successfully execute partitioner Docker container: {}"
                    (Some e))))), w4).
Proof.
  intros Hfind Hcreate Hname Hrun Hne.
  unfold _async_process_request, try_catch, process_request_try.
  unfold bind at 1. rewrite Hfind. cbv zeta.
  unfold bind at 1. rewrite Hcreate. cbv beta iota.
  rewrite (proj2 (is_None_false_iff _) Hname).
  unfold bind. rewrite request_execute_eq, Hrun.
  destruct e; try reflexivity. congruence.
Qed.

(** X22: an exception of the data service while the hydrofabric dataset is
    looked up is answered with a failure response when it is a
    [RuntimeError] (the reason being the class name of its cause), and
    leaves [_async_process_request] as it is when it is anything else. *)
Theorem process_request_lookup_exception (request : PartitionRequest) w e w1 :
  async_make_request
    (search_request (hydrofabric_data_id request) (hydrofabric_uid request)) w
  = (Raise e, w1) ->
  process_request request w
  = if caught e
    then (Ok (PartitionResponse_init false (cause_class_name e) (Some (str_exn e))), w1)
    else (Raise e, w1).
Proof.
  intros Hsearch.
  unfold _async_process_request, try_catch, process_request_try.
  unfold bind at 1. rewrite find_name_eq, Hsearch.
  destruct (caught e); reflexivity.
Qed.

End RequestPathFacts.

(* ================================================================== *)
(** * WebSocketInterface: the SSL files                                 *)
(* ================================================================== *)

Section SSLFilesFacts.
Import WebSocketInterface.
Context {Path : Type}.
Variable joinpath : Path -> string -> Path.
Variable module_ssl_dir : Path.

(** X23: the files come from the directory given, never from the
    directory [__init__] falls back on.  The SSL files are settled exactly
    when an SSL directory is given or both files are; a file that is not
    given is then the one of that name in the given directory, and
    [self.ssl_dir] is the directory given.  With no directory and a file
    missing, the fallback directory is computed and the constructor then
    raises [AttributeError]. *)
Theorem init_ssl_files_spec (ssl_dir cert_pem priv_key_pem : option Path) :
  ((exists files, init_ssl_files joinpath module_ssl_dir ssl_dir cert_pem priv_key_pem = Ok files)
   <-> (ssl_dir <> None \/ (cert_pem <> None /\ priv_key_pem <> None)))
  /\ (forall self_ssl_dir cert key,
      init_ssl_files joinpath module_ssl_dir ssl_dir cert_pem priv_key_pem = Ok (self_ssl_dir, cert, key) ->
      self_ssl_dir = ssl_dir
      /\ (cert_pem = Some cert
          \/ cert_pem = None
             /\ exists dir, ssl_dir = Some dir /\ cert = joinpath dir "certificate.pem")
      /\ (priv_key_pem = Some key
          \/ priv_key_pem = None
             /\ exists dir, ssl_dir = Some dir /\ key = joinpath dir "privkey.pem"))
  /\ (ssl_dir = None -> cert_pem = None \/ priv_key_pem = None ->
      init_ssl_files joinpath module_ssl_dir ssl_dir cert_pem priv_key_pem = Raise (AttributeError "joinpath")).
Proof.
  unfold init_ssl_files, ssl_dir_joinpath.
  destruct ssl_dir as [dir|], cert_pem as [c|], priv_key_pem as [k|]; simpl;
    (split; [split|split]).
  all: try (intros _; eauto; fail).
  all: try (intros _; left; discriminate).
  all: try (intros _; right; split; discriminate).
  all: try (intros [files Hf]; discriminate Hf).
  all: try (intros [Hc|[Hc Hk]]; congruence).
  all: try (intros s c' k' [= <- <- <-]; repeat split; eauto; fail).
  all: try (intros s c' k' Hf; discriminate Hf).
  all: try (intros Hd; discriminate Hd).
  all: try (intros _ [Hc|Hk]; congruence).
  all: try (intros _ _; reflexivity).
Qed.

End SSLFilesFacts.

Lemma init_ssl_files_spec_witness :
  WebSocketInterface.init_ssl_files (fun dir name => dir +:+ "/" +:+ name)
    "/app/ssl" None None (Some "/keys/privkey.pem")
  = Raise (AttributeError "joinpath")
  /\ (exists files,
        WebSocketInterface.init_ssl_files (fun dir name => dir +:+ "/" +:+ name)
          "/app/ssl" (Some "/ssl/scheduler") None None = Ok files).
Proof.
  split.
  - apply (proj2 (proj2 (init_ssl_files_spec (fun dir name => dir +:+ "/" +:+ name)
                           "/app/ssl" None None (Some "/keys/privkey.pem")))).
    + reflexivity.
    + left. reflexivity.
  - apply (proj2 (proj1 (init_ssl_files_spec (fun dir name => dir +:+ "/" +:+ name)
                           "/app/ssl" (Some "/ssl/scheduler") None None))).
    left. discriminate.
Defined.

(* ================================================================== *)
(** * ServiceManager: what is asked of the data service                *)
(* ================================================================== *)

Section DataServiceRequests.
Import ServiceManager ManagementAction.

Variable World : Type.
Variable async_make_request : DatasetManagementMessage.t -> M World Response.t.
Variable uuid4 : M World string.

Abbreviation find_name := (_async_find_hydrofabric_dataset_name World async_make_request).
Abbreviation create_dataset :=
  (_async_create_new_partitioning_dataset World async_make_request uuid4).

(** X24: creating the partitioning dataset.  A name that is not [None]
    comes back only when a uuid was drawn and the data service answered
    with success the request to create a [CONFIG] dataset named
    [partition-config-] followed by that uuid; the name is then that
    string, and the [data_id] is whatever the response holds under
    [data_id], which may be [None]. *)
Theorem create_dataset_result w name data_id w' :
  create_dataset w = (Ok (name, data_id), w') ->
  name <> PyNone ->
  exists id w1 response,
    uuid4 w = (Ok id, w1)
    /\ async_make_request (create_request ("partition-config-" +:+ id)) w1
       = (Ok response, w')
    /\ Response.success response = true
    /\ name = PyStr ("partition-config-" +:+ id)
    /\ DatasetManagementResponse.data_id response = Ok data_id
    /\ DatasetManagementMessage.management_action
         (create_request ("partition-config-" +:+ id)) = PyAction CREATE
    /\ DatasetManagementMessage.data_category
         (create_request ("partition-config-" +:+ id)) = PyCategory CONFIG.
Proof.
  rewrite create_dataset_eq. intros Hrun Hname.
  destruct (uuid4 w) as [[id|e] w1]; [|discriminate].
  destruct (async_make_request (create_request ("partition-config-" +:+ id)) w1)
    as [[response|e] w2] eqn:Hreq; [|discriminate].
  destruct (Response.success response) eqn:Hs.
  - unfold bind, lift, ret in Hrun.
    destruct (DatasetManagementResponse.data_id response) as [d|e] eqn:Hd;
      [|discriminate].
    injection Hrun as <- <- <-.
    exists id, w1, response. repeat split; auto.
  - unfold ret in Hrun. injection Hrun as <- _ _. congruence.
Qed.

(** X25: looking up the hydrofabric dataset.  A name that is not [None]
    comes back only when the data service answered with success the one
    request sent, a SEARCH in category [HYDROFABRIC] whose domain restricts
    [data_id] and [uid] to the two values given; the name is what the
    response holds under [dataset_name]. *)
Theorem find_name_result (data_id uid : pyvalue) w name w' :
  find_name data_id uid w = (Ok name, w') ->
  name <> PyNone ->
  exists response,
    async_make_request (search_request data_id uid) w = (Ok response, w')
    /\ Response.success response = true
    /\ DatasetManagementResponse.dataset_name response = Ok name
    /\ DatasetManagementMessage.management_action (search_request data_id uid)
       = PyAction SEARCH
    /\ DatasetManagementMessage.data_category (search_request data_id uid)
       = PyCategory HYDROFABRIC
    /\ (discrete_restrictions <$>
          DatasetManagementMessage.data_domain (search_request data_id uid))
       = Some [("data_id", mkDiscreteRestriction "data_id" [data_id]);
               ("uid", mkDiscreteRestriction "uid" [uid])].
Proof.
  rewrite find_name_eq. intros Hrun Hname.
  destruct (async_make_request (search_request data_id uid) w)
    as [[response|e] w1]; [|discriminate].
  destruct (Response.success response) eqn:Hs.
  - unfold lift in Hrun. injection Hrun as Hn <-.
    exists response. repeat split; auto.
  - unfold ret in Hrun. injection Hrun as <- _. congruence.
Qed.

End DataServiceRequests.

Lemma create_dataset_result_witness :
  exists id w1 response,
    Example.uuid4 tt = (Ok id, w1)
    /\ Example.data_service
         (ServiceManager.create_request ("partition-config-" +:+ id)) w1
       = (Ok response, tt)
    /\ Response.success response = true
    /\ PyStr "partition-config-0000-0001" = PyStr ("partition-config-" +:+ id)
    /\ DatasetManagementResponse.data_id response = Ok (PyStr "data-id-9")
    /\ DatasetManagementMessage.management_action
         (ServiceManager.create_request ("partition-config-" +:+ id))
       = PyAction ManagementAction.CREATE
    /\ DatasetManagementMessage.data_category
         (ServiceManager.create_request ("partition-config-" +:+ id))
       = PyCategory CONFIG.
Proof.
  apply (create_dataset_result unit Example.data_service Example.uuid4 tt
           (PyStr "partition-config-0000-0001") (PyStr "data-id-9") tt).
  - reflexivity.
  - discriminate.
Defined.

Lemma find_name_result_witness :
  exists response,
    Example.data_service
      (ServiceManager.search_request (PyStr "hf-data-1") (PyStr "hf-uid-1")) tt
    = (Ok response, tt)
    /\ Response.success response = true
    /\ DatasetManagementResponse.dataset_name response = Ok (PyStr "hydrofabric-1")
    /\ DatasetManagementMessage.management_action
         (ServiceManager.search_request (PyStr "hf-data-1") (PyStr "hf-uid-1"))
       = PyAction ManagementAction.SEARCH
    /\ DatasetManagementMessage.data_category
         (ServiceManager.search_request (PyStr "hf-data-1") (PyStr "hf-uid-1"))
       = PyCategory HYDROFABRIC
    /\ (discrete_restrictions <$>
          DatasetManagementMessage.data_domain
            (ServiceManager.search_request (PyStr "hf-data-1") (PyStr "hf-uid-1")))
       = Some [("data_id", mkDiscreteRestriction "data_id" [PyStr "hf-data-1"]);
               ("uid", mkDiscreteRestriction "uid" [PyStr "hf-uid-1"])].
Proof.
  apply (find_name_result unit Example.data_service
           (PyStr "hf-data-1") (PyStr "hf-uid-1") tt (PyStr "hydrofabric-1") tt).
  - reflexivity.
  - discriminate.
Defined.

(* ================================================================== *)
(** * The concrete deployment, once more                               *)
(* ================================================================== *)

Lemma manage_one_job_outcome_witness :
  exists job' w',
    ServiceManager.manage_one_job unit Example.data_service Example.uuid4
      Example.docker_down Example.failing_save_job "partitioner:latest"
      Example.waiting_job tt = (Ok job', w')
    /\ job_id job' = "job-1"
    /\ cpu_count job' = 4
    /\ ((status_step job' = PARTITIONING_FAILED
         /\ data_requirements job' = [Example.hydrofabric_requirement])
        \/ (status_step job' = AWAITING_ALLOCATION
            /\ exists name id,
                 data_requirements job'
                 = [Example.hydrofabric_requirement]
                   ++ [ServiceManager.partition_config_requirement name id])).
Proof.
  apply (manage_one_job_outcome unit Example.data_service Example.uuid4
           Example.docker_down Example.failing_save_job "partitioner:latest"
           Example.waiting_job tt).
  reflexivity.
Defined.

Lemma job_advanced_only_on_success_witness :
  exists d u search_response w1 hy_name id w2 create_response w3 new_id logs w4,
    ServiceManager._find_required_hydrofabric_details Example.waiting_job = (d, u)
    /\ d <> PyNone /\ u <> PyNone
    /\ Example.data_service (ServiceManager.search_request d u) tt
       = (Ok search_response, w1)
    /\ Response.success search_response = true
    /\ DatasetManagementResponse.dataset_name search_response = Ok hy_name
    /\ hy_name <> PyNone
    /\ Example.uuid4 w1 = (Ok id, w2)
    /\ Example.data_service
         (ServiceManager.create_request ("partition-config-" +:+ id)) w2
       = (Ok create_response, w3)
    /\ Response.success create_response = true
    /\ DatasetManagementResponse.data_id create_response = Ok new_id
    /\ new_id <> PyNone
    /\ Example.docker_ok "partitioner:latest"
         (ServiceManager.job_partitioner_command Example.waiting_job hy_name
            (PyStr ("partition-config-" +:+ id))) true w3 = (Ok logs, w4).
Proof.
  apply (job_advanced_only_on_success unit Example.data_service Example.uuid4
           Example.docker_ok Example.failing_save_job "partitioner:latest"
           Example.waiting_job tt
           (set_status_step
              (append_data_requirement Example.waiting_job
                 (ServiceManager.partition_config_requirement
                    (PyStr "partition-config-0000-0001") (PyStr "data-id-9")))
              AWAITING_ALLOCATION)
           tt); reflexivity.
Defined.

Lemma manage_jobs_nothing_to_do_witness :
  ServiceManager.manage_jobs unit Example.data_service Example.uuid4 Example.docker_ok
    Example.failing_save_job "partitioner:latest"
    [Example.running_job; set_status_step Example.waiting_job PARTITIONING_FAILED] tt
  = (Ok [Example.running_job; set_status_step Example.waiting_job PARTITIONING_FAILED], tt).
Proof.
  apply (manage_jobs_nothing_to_do unit Example.data_service Example.uuid4
           Example.docker_ok Example.failing_save_job "partitioner:latest").
  repeat constructor; discriminate.
Defined.

Lemma process_request_dataset_not_found_witness :
  ServiceManager._async_process_request unit Example.data_service_without_match
    Example.uuid4 Example.docker_ok "partitioner:latest"
    Example.partition_response_init Example.partition_response_factory_create
    (fun _ => true) ServiceManager.class_name Example.partition_request tt
  = (Ok (Example.partition_response_init false "Could Not Find Hydrofabric Dataset" None),
     tt).
Proof.
  eapply (process_request_dataset_not_found unit Example.data_service_without_match
            Example.uuid4 Example.docker_ok "partitioner:latest"
            Example.partition_response_init Example.partition_response_factory_create
            (fun _ => true) ServiceManager.class_name Example.partition_request tt).
  - reflexivity.
  - left. reflexivity.
Defined.

Lemma process_request_ignores_exit_code_witness :
  ServiceManager._async_process_request unit Example.data_service
    Example.uuid4 Example.docker_nonzero_exit "partitioner:latest"
    Example.partition_response_init Example.partition_response_factory_create
    (fun _ => true) ServiceManager.class_name Example.partition_request tt
  = (Ok (Example.partition_response_factory_create
           (PyStr "partition-config-0000-0001") (PyStr "data-id-9")
           "Partitioning Complete"), tt).
Proof.
  apply (process_request_ignores_exit_code unit Example.data_service
           Example.uuid4 Example.docker_nonzero_exit "partitioner:latest"
           Example.partition_response_init Example.partition_response_factory_create
           (fun _ => true) ServiceManager.class_name Example.partition_request tt
           "hydrofabric-1" tt (PyStr "partition-config-0000-0001") (PyStr "data-id-9")
           tt (Raise ContainerError) tt).
  - reflexivity.
  - reflexivity.
  - discriminate.
  - reflexivity.
  - left. reflexivity.
Defined.

Lemma process_request_container_failure_witness :
  ServiceManager._async_process_request unit Example.data_service
    Example.uuid4 Example.docker_down "partitioner:latest"
    Example.partition_response_init Example.partition_response_factory_create
    (fun _ => true) ServiceManager.class_name Example.partition_request tt
  = (Ok (Example.partition_response_init false "APIError" (Some "RuntimeError")), tt).
Proof.
  apply (process_request_container_failure unit Example.data_service
           Example.uuid4 Example.docker_down "partitioner:latest"
           Example.partition_response_init Example.partition_response_factory_create
           (fun _ => true) ServiceManager.class_name Example.partition_request tt
           "hydrofabric-1" tt (PyStr "partition-config-0000-0001") (PyStr "data-id-9")
           tt (OtherException "APIError") tt).
  - reflexivity.
  - reflexivity.
  - discriminate.
  - reflexivity.
  - discriminate.
Defined.

Lemma process_request_lookup_exception_witness :
  ServiceManager._async_process_request unit Example.data_service_down
    Example.uuid4 Example.docker_ok "partitioner:latest"
    Example.partition_response_init Example.partition_response_factory_create
    (fun _ => false) ServiceManager.class_name Example.partition_request tt
  = (Raise (OtherException "ConnectionClosed"), tt).
Proof.
  apply (process_request_lookup_exception unit Example.data_service_down
           Example.uuid4 Example.docker_ok "partitioner:latest"
           Example.partition_response_init Example.partition_response_factory_create
           (fun _ => false) ServiceManager.class_name Example.partition_request tt
           (OtherException "ConnectionClosed") tt).
  reflexivity.
Defined.
